(** * OpenQQuantify quantum simulator gateway: a shallow embedding of
      [quantum_simulator/app.py] and the properties of its request pipeline.

    Conventions of the embedding.
    - Python values that travel through JSON are the inductive [pyval].
    - Python [str] is [string]; every character is read as the code point
      of the same number (U+0000 to U+00FF), with Python's [str.isspace]
      and [str.lower] on that range.
    - Wall-clock readings ([time.time()]) are exact rationals ([Q]).
    - A REAL value of the record store is named by its exact value, a
      rational, or is NULL. The double arithmetic of SQLite's [AVG] and
      the order SQLite gives to groups with equal averages are not
      computed here: the table carries them ([sql_avg_of], [tie_rank]),
      and the properties hold whatever they are.
    - What Flask, [requests] and [sqlite3] raise on the way (a body that
      is not JSON, a reply that is not JSON, an integer that does not fit
      64 bits) is part of the model.
    - Exceptions are values of [exn]; code that can raise lives in the
      [result] monad, and a [try ... except] is a function on [result].
    - The module-level dict [request_timestamps] is a [gmap] that every
      request receives and returns. *)

From Stdlib Require Import ZArith QArith Lqa Lia Bool Ascii String List.
From Stdlib Require Import Sorting.Sorted Sorting.Permutation DecimalString.
From stdpp Require Import base list gmap strings.

Import ListNotations.
Local Open Scope string_scope.
Local Open Scope list_scope.
Local Open Scope Z_scope.

(** ** Rational comparisons as booleans *)

Definition Qltb (x y : Q) : bool := negb (Qle_bool y x).

(** ** Python values *)

#[warnings="-register-all"]
Inductive pyval : Type :=
  | PNone
  | PBool (b : bool)
  | PInt (z : Z)
  | PFloat (q : Q)
  | PStr (s : string)
  | PList (l : list pyval)
  | PDict (d : list (string * pyval)).

(** [bool(v)]: the truth value Python gives to [v]. *)
Definition truthy (v : pyval) : bool :=
  match v with
  | PNone => false
  | PBool b => b
  | PInt z => negb (z =? 0)
  | PFloat q => negb (Qeq_bool q 0)
  | PStr s => negb (String.eqb s "")
  | PList l => match l with [] => false | _ => true end
  | PDict d => match d with [] => false | _ => true end
  end.

(** ** Exceptions *)

Inductive exn_class : Type :=
  | Timeout              (* requests.exceptions.Timeout and its subclasses *)
  | ConnectionError      (* requests.exceptions.ConnectionError *)
  | HTTPError            (* requests.exceptions.HTTPError *)
  | RequestException     (* any other requests.exceptions.RequestException *)
  | RequestsJSONDecodeError
      (* requests.exceptions.JSONDecodeError, which [response.json()]
         raises since requests 2.27: a subclass of both InvalidJSONError,
         which is a RequestException, and json.JSONDecodeError *)
  | JSONDecodeError      (* any other json.JSONDecodeError *)
  | SqliteError          (* sqlite3.Error and its subclasses *)
  | BadRequest           (* werkzeug.exceptions.BadRequest *)
  | UnsupportedMediaType (* werkzeug.exceptions.UnsupportedMediaType *)
  | OverflowError
  | AttributeError
  | KeyError
  | IndexError
  | TypeError
  | ZeroDivisionError
  | OtherException.

Record exn : Type := Exn { exn_class_of : exn_class; exn_text : string }.

(** [isinstance(e, requests.exceptions.Timeout)] *)
Definition is_Timeout (e : exn) : bool :=
  match exn_class_of e with Timeout => true | _ => false end.

(** [isinstance(e, requests.exceptions.RequestException)] *)
Definition is_RequestException (e : exn) : bool :=
  match exn_class_of e with
  | Timeout | ConnectionError | HTTPError | RequestException
  | RequestsJSONDecodeError => true
  | _ => false
  end.

(** [isinstance(e, json.JSONDecodeError)] *)
Definition is_JSONDecodeError (e : exn) : bool :=
  match exn_class_of e with
  | RequestsJSONDecodeError | JSONDecodeError => true
  | _ => false
  end.

(** [isinstance(e, sqlite3.Error)] *)
Definition is_sqlite3_Error (e : exn) : bool :=
  match exn_class_of e with SqliteError => true | _ => false end.

(** [str(e)] *)
Definition str_of_exn (e : exn) : string := exn_text e.

Inductive result (A : Type) : Type :=
  | Ok (a : A)
  | Raise (e : exn).
Arguments Ok {A} a.
Arguments Raise {A} e.

#[global] Instance result_ret : MRet result := fun _ a => Ok a.
#[global] Instance result_bind : MBind result := fun _ _ f m =>
  match m with Ok a => f a | Raise e => Raise e end.

Definition raise {A} (c : exn_class) (text : string) : result A :=
  Raise (Exn c text).

(** ** Python [str] operations *)

Definition string_of_list (l : list ascii) : string := string_of_list_ascii l.

(** [c.isspace()] on the code points below 256: the ASCII white space
    (TAB, LF, VT, FF, CR, the separators FS, GS, RS, US, and SPACE), then
    NEL (U+0085) and the no-break space (U+00A0). *)
Definition isspace (c : ascii) : bool :=
  let n := nat_of_ascii c in
  ((9 <=? n) && (n <=? 13) || (28 <=? n) && (n <=? 32)
   || (n =? 133) || (n =? 160))%nat.

(** [c.lower()] on the code points below 256: A-Z, and the Latin-1 capitals
    U+00C0 to U+00DE without the multiplication sign U+00D7. *)
Definition lower_char (c : ascii) : ascii :=
  let n := nat_of_ascii c in
  if ((65 <=? n) && (n <=? 90)
      || (192 <=? n) && (n <=? 222) && negb (n =? 215))%nat
  then ascii_of_nat (n + 32) else c.

Fixpoint lower (s : string) : string :=
  match s with
  | EmptyString => EmptyString
  | String c rest => String (lower_char c) (lower rest)
  end.

(** [s.lstrip()] *)
Fixpoint lstrip (s : string) : string :=
  match s with
  | EmptyString => EmptyString
  | String c rest => if isspace c then lstrip rest else s
  end.

(** [s.rstrip()]: the empty string when nothing but white space follows. *)
Fixpoint rstrip (s : string) : string :=
  match s with
  | EmptyString => EmptyString
  | String c rest =>
      match rstrip rest with
      | EmptyString => if isspace c then EmptyString else String c EmptyString
      | kept => String c kept
      end
  end.

(** [s.strip()] *)
Definition strip (s : string) : string := rstrip (lstrip s).

(** [s.rstrip(chars)] for a one-character [chars]. *)
Fixpoint rstrip_char (x : ascii) (s : string) : string :=
  match s with
  | EmptyString => EmptyString
  | String c rest =>
      match rstrip_char x rest with
      | EmptyString => if Ascii.eqb c x then EmptyString else String c EmptyString
      | kept => String c kept
      end
  end.

(** [keyword in s]: [keyword] occurs in [s] as a contiguous substring. *)
Fixpoint contains (keyword s : string) : bool :=
  String.prefix keyword s
  || match s with
     | EmptyString => false
     | String _ rest => contains keyword rest
     end.

(** [sep.join(lines)] *)
Fixpoint join (sep : string) (lines : list string) : string :=
  match lines with
  | [] => ""
  | [l] => l
  | l :: rest => (l ++ sep ++ join sep rest)%string
  end.

Definition newline : string := String (ascii_of_nat 10) EmptyString.

(** ** Number formatting *)

(** [str(n)] for an integer. *)
Definition str_of_Z (z : Z) : string := NilZero.string_of_int (Z.to_int z).

(** Rounding to the nearest integer, ties to the even neighbour: the rule
    of Python's fixed-point formatting. *)
Definition round_half_even (q : Q) : Z :=
  let n := Qnum q in
  let d := Z.pos (Qden q) in
  let lo := n / d in
  match (2 * (n mod d)) ?= d with
  | Lt => lo
  | Gt => lo + 1
  | Eq => if Z.even lo then lo else lo + 1
  end.

(** [s.zfill(width)] for a string of digits. *)
Definition zfill (width : nat) (s : string) : string :=
  (string_of_list (repeat "0"%char (width - String.length s)) ++ s)%string.

(** [format(q, ".{digits}f")] *)
Definition format_f (digits : nat) (q : Q) : string :=
  let scale := 10 ^ Z.of_nat digits in
  let m := Z.abs (round_half_even (q * inject_Z scale)) in
  let sign := if Qltb q 0 then "-" else "" in
  let fraction :=
    match digits with
    | O => ""
    | _ => ("." ++ zfill digits (str_of_Z (m mod scale)))%string
    end in
  (sign ++ str_of_Z (m / scale) ++ fraction)%string.

(** ** Binary floating point as Python sees it *)

(** A [float] that is not NaN. A finite one is named by its exact value;
    the zero with the sign bit set is apart, since Python prints it with
    its sign. *)
Inductive double : Type :=
  | Finite (q : Q)
  | NegativeZero
  | Infinity (negative : bool).

(** [format(x, ".{digits}f")] for a float. *)
Definition format_double (digits : nat) (x : double) : string :=
  match x with
  | Finite q => format_f digits q
  | NegativeZero => ("-" ++ format_f digits 0)%string
  | Infinity false => "inf"
  | Infinity true => "-inf"
  end.

(** ** The record store *)

(** One row of the table [simulations], with the columns written by
    [generate_data.generate_quantum_data]. A REAL column holds a finite
    number or NULL ([None]). *)
Record SimulationRecord : Type := {
  simulation_id : string;
  algorithm : string;
  qubits : Z;
  depth : Z;
  backend : string;
  runtime_ms : option Q;
  accuracy : option Q;
  date_run : string;
  parameters : string
}.

(** A REAL column as [sqlite3] hands it to Python. *)
Definition py_of_real (x : option Q) : pyval :=
  match x with Some q => PFloat q | None => PNone end.

(** [dict(row)] for a row of [SELECT * FROM simulations]. *)
Definition dict_of_row (r : SimulationRecord) : pyval :=
  PDict [ ("simulation_id", PStr (simulation_id r));
          ("algorithm", PStr (algorithm r));
          ("qubits", PInt (qubits r));
          ("depth", PInt (depth r));
          ("backend", PStr (backend r));
          ("runtime_ms", py_of_real (runtime_ms r));
          ("accuracy", py_of_real (accuracy r));
          ("date_run", PStr (date_run r));
          ("parameters", PStr (parameters r)) ].

(** The largest and the smallest INTEGER of SQLite. *)
Definition INT64_MAX : Z := 9223372036854775807.
Definition INT64_MIN : Z := -9223372036854775808.

(** The table [simulations] as a connection finds it.
    - [rows]: the records, in the order of their rowids. A rowid is a
      signed 64-bit integer, which bounds their number.
    - [sql_avg_of]: what the engine returns for [AVG] over the values of a
      group that are not NULL: a double computed from a running sum in
      floating point, or NULL when that is not a number.
    - [tie_rank]: the order the engine gives to groups that [ORDER BY]
      leaves equal; SQL does not fix it. *)
Record table : Type := {
  rows : list SimulationRecord;
  rows_fit : Z.of_nat (length rows) <= INT64_MAX;
  sql_avg_of : list Q -> option double;
  tie_rank : string -> nat
}.

(** The store as a request finds it: [sqlite3.connect] fails; or the
    connection opens and the table is missing, so that every statement on
    it raises; or the table is there. *)
Inductive database : Type :=
  | Unavailable (text : string)
  | NoSuchTable (text : string)
  | Simulations (t : table).

(** What a statement on the table [simulations] finds. *)
Abbreviation connection := (result table).

(** [with get_db_connection() as conn: body]. The handler of the context
    manager logs, rolls back and re-raises; [finally] closes. *)
Definition get_db_connection {A} (d : database)
    (body : connection -> result A) : result A :=
  match d with
  | Unavailable text => raise SqliteError text
  | NoSuchTable text => body (raise SqliteError text)
  | Simulations t => body (Ok t)
  end.

(** A Python [int] bound to a [?] of a statement: [sqlite3] passes it as a
    64-bit INTEGER and raises [OverflowError] when it does not fit. The
    statement is prepared before its parameters are bound. *)
Definition fits_int64 (z : Z) : bool := (INT64_MIN <=? z) && (z <=? INT64_MAX).

Definition sqlite_bind (z : Z) : result Z :=
  if fits_int64 z then Ok z
  else raise OverflowError "Python int too large to convert to SQLite INTEGER".

(** *** SQL: [LIMIT ? OFFSET ?] *)

(** SQLite: a negative LIMIT puts no bound on the number of rows. *)
Definition sql_limit {A} (n : Z) (l : list A) : list A :=
  if n <? 0 then l else firstn (Z.to_nat n) l.

(** SQLite: a negative OFFSET is read as zero. *)
Definition sql_offset {A} (n : Z) (l : list A) : list A :=
  skipn (Z.to_nat (Z.max 0 n)) l.

(** *** SQL: [ORDER BY] *)

Section OrderBy.
Context {A : Type} (before : A -> A -> bool).

Fixpoint insert_sorted (x : A) (l : list A) : list A :=
  match l with
  | [] => [x]
  | y :: rest =>
      if before x y then x :: l else y :: insert_sorted x rest
  end.

Definition order_by (l : list A) : list A :=
  fold_right insert_sorted [] l.
End OrderBy.

(** The place of a value in SQLite's order of a REAL column: NULL below
    every number, then the numbers with their infinities. *)
Definition sql_key (v : option double) : Z * Q :=
  match v with
  | None => (0, 0%Q)
  | Some (Infinity true) => (1, 0%Q)
  | Some (Finite q) => (2, q)
  | Some NegativeZero => (2, 0%Q)
  | Some (Infinity false) => (3, 0%Q)
  end.

(** [v <= w] in that order. *)
Definition sql_le (v w : option double) : bool :=
  let '(i, x) := sql_key v in
  let '(j, y) := sql_key w in
  (i <? j) || ((i =? j) && Qle_bool x y).

(** *** SQL: the aggregate query of [get_simulation_summary] *)

Record summary_row : Type := {
  row_algorithm : string;
  avg_accuracy : option double;
  avg_runtime : option double;
  simulation_count : Z
}.

(** The values of [algorithm], each once, in order of first appearance:
    the groups of [GROUP BY algorithm]. *)
Fixpoint group_keys (rows : list SimulationRecord) : list string :=
  match rows with
  | [] => []
  | r :: rest =>
      algorithm r
      :: List.filter (fun a => negb (String.eqb a (algorithm r)))
           (group_keys rest)
  end.

Definition group_rows (a : string) (rows : list SimulationRecord)
  : list SimulationRecord :=
  List.filter (fun r => String.eqb (algorithm r) a) rows.

(** The values of a column that are not NULL. *)
Fixpoint not_null (values : list (option Q)) : list Q :=
  match values with
  | [] => []
  | Some q :: rest => q :: not_null rest
  | None :: rest => not_null rest
  end.

(** [AVG(column)] over a group: NULL when every value is NULL, else what
    the engine computes from the others. *)
Definition sql_avg (t : table) (column : SimulationRecord -> option Q)
    (group : list SimulationRecord) : option double :=
  match not_null (map column group) with
  | [] => None
  | values => sql_avg_of t values
  end.

Definition aggregate (t : table) (a : string) : summary_row :=
  let group := group_rows a (rows t) in
  {| row_algorithm := a;
     avg_accuracy := sql_avg t accuracy group;
     avg_runtime := sql_avg t runtime_ms group;
     simulation_count := Z.of_nat (length group) |}.

(** [ORDER BY avg_accuracy DESC]: the greater average first, and groups
    with equal averages as the engine ranks them. *)
Definition accuracy_desc (t : table) (g h : summary_row) : bool :=
  if sql_le (avg_accuracy g) (avg_accuracy h)
     && sql_le (avg_accuracy h) (avg_accuracy g)
  then (tie_rank t (row_algorithm g) <=? tie_rank t (row_algorithm h))%nat
  else sql_le (avg_accuracy h) (avg_accuracy g).

(** The groups with their aggregates, in the order of [ORDER BY]. *)
Definition ranking (t : table) : list summary_row :=
  order_by (accuracy_desc t) (map (aggregate t) (group_keys (rows t))).

(** [SELECT algorithm, AVG(accuracy) as avg_accuracy, AVG(runtime_ms) as
    avg_runtime, COUNT( * ) as simulation_count FROM simulations GROUP BY
    algorithm ORDER BY avg_accuracy DESC LIMIT ?] *)
Definition select_summary (limit : Z) (t : table) : list summary_row :=
  sql_limit limit (ranking t).

(** [SELECT COUNT( * ) as total FROM simulations] *)
Definition select_count (rows : list SimulationRecord) : Z :=
  Z.of_nat (length rows).

(** [ORDER BY simulation_id]: TEXT values in byte order. *)
Definition id_before (r s : SimulationRecord) : bool :=
  String.leb (simulation_id r) (simulation_id s).

(** [SELECT * FROM simulations ORDER BY simulation_id LIMIT ? OFFSET ?] *)
Definition select_page (per_page offset : Z) (rows : list SimulationRecord)
  : list SimulationRecord :=
  sql_limit per_page (sql_offset offset (order_by id_before rows)).

(** ** Python operators on JSON values *)

Fixpoint dict_lookup (key : string) (d : list (string * pyval)) : option pyval :=
  match d with
  | [] => None
  | (k, v) :: rest => if String.eqb k key then Some v else dict_lookup key rest
  end.

(** [key in v] for a [str] key. *)
Definition py_contains (key : string) (v : pyval) : result bool :=
  match v with
  | PDict d => Ok (bool_decide (is_Some (dict_lookup key d)))
  | PList l =>
      Ok (existsb (fun x => match x with
                            | PStr s => String.eqb s key
                            | _ => false
                            end) l)
  | PStr s => Ok (contains key s)
  | _ => raise TypeError "argument is not iterable"
  end.

(** [v[key]] for a [str] key. *)
Definition py_getitem (v : pyval) (key : string) : result pyval :=
  match v with
  | PDict d =>
      match dict_lookup key d with
      | Some x => Ok x
      | None => raise KeyError key
      end
  | PList _ | PStr _ => raise TypeError "indices must be integers"
  | _ => raise TypeError "object is not subscriptable"
  end.

(** [v[0]] *)
Definition py_getitem_0 (v : pyval) : result pyval :=
  match v with
  | PList (x :: _) => Ok x
  | PList [] => raise IndexError "list index out of range"
  | PStr (String c _) => Ok (PStr (String c EmptyString))
  | PStr EmptyString => raise IndexError "string index out of range"
  | PDict _ => raise KeyError "0"
  | _ => raise TypeError "object is not subscriptable"
  end.

(** [v.get(key, default)] *)
Definition py_get (v : pyval) (key : string) (default : pyval) : result pyval :=
  match v with
  | PDict d =>
      Ok (match dict_lookup key d with Some x => x | None => default end)
  | _ => raise AttributeError "object has no attribute 'get'"
  end.

(** [v.strip()] *)
Definition py_strip (v : pyval) : result string :=
  match v with
  | PStr s => Ok (strip s)
  | _ => raise AttributeError "object has no attribute 'strip'"
  end.

(** [a // b] on integers. *)
Definition py_floordiv (a b : Z) : result Z :=
  if b =? 0 then raise ZeroDivisionError "integer division or modulo by zero"
  else Ok (a / b).

(** ** Requests, responses and the world a request runs in *)

Record response : Type := { status : Z; body : pyval }.

(** [jsonify(fields)], and [jsonify(fields), code]. *)
Definition jsonify (fields : list (string * pyval)) : response :=
  {| status := 200; body := PDict fields |}.
Definition jsonify_status (fields : list (string * pyval)) (code : Z) : response :=
  {| status := code; body := PDict fields |}.

(** What a view reads from Flask's [request]. [json] is what evaluating
    the property [request.json] does: it returns the parsed body, or it
    raises ([BadRequest] for a body that is not JSON,
    [UnsupportedMediaType] for a body that is not declared as JSON).
    [args_int key] is [request.args.get(key, type=int)]: the query
    parameter converted by [int], [None] when it is absent or not an
    integer. *)
Record request : Type := {
  remote_addr : string;
  host_url : string;
  json : result pyval;
  args_int : string -> option Z
}.

(** [request.args.get(key, default, type=int)] *)
Definition args_get (req : request) (key : string) (default : Z) : Z :=
  match args_int req key with Some z => z | None => default end.

(** The call [requests.post(url, headers=..., data=..., timeout=...)];
    [data] stands for [json.dumps(payload)]. *)
Record outbound : Type := {
  url : string;
  headers : list (string * string);
  data : pyval;
  timeout : Z
}.

(** The object [requests.post] returns: what [raise_for_status()] does,
    and the body parsed as JSON, [None] for a body that is not JSON. *)
Record upstream_response : Type := {
  raise_for_status : result unit;
  json_body : option pyval
}.

(** [response.json()] *)
Definition response_json (response : upstream_response) : result pyval :=
  match json_body response with
  | Some data => Ok data
  | None => raise RequestsJSONDecodeError "Expecting value"
  end.

(** Everything outside the process that one request observes. *)
Record env : Type := {
  OPENROUTER_API_KEY : string;
  time_time : Q;
  db : database;
  requests_post : outbound -> result upstream_response
}.

Definition MAX_QUESTION_LENGTH : Z := 1000.
Definition API_TIMEOUT : Z := 30.

(** A view: the response, with the calls it made to the upstream service. *)
Definition view : Type := request -> env -> list outbound * response.

(** ** [rate_limit] *)

(** The list comprehension that cleans old timestamps. *)
Definition clean (window_seconds current_time : Q) (stamps : list Q) : list Q :=
  List.filter (fun ts => Qltb (current_time - ts) window_seconds) stamps.

Definition rate_limit (max_requests : Z) (window_seconds : Q) (f : view)
    (req : request) (e : env) (request_timestamps : gmap string (list Q))
  : gmap string (list Q) * (list outbound * response) :=
  let client_ip := remote_addr req in
  let current_time := time_time e in
  let kept :=
    match request_timestamps !! client_ip with
    | Some stamps => clean window_seconds current_time stamps
    | None => []
    end in
  let request_timestamps := <[client_ip := kept]> request_timestamps in
  if max_requests <=? Z.of_nat (length kept) then
    (request_timestamps,
     ([], jsonify_status
            [("error", PStr "Rate limit exceeded. Try again later.")] 429))
  else
    (<[client_ip := kept ++ [current_time]]> request_timestamps, f req e).

(** ** [get_simulation_summary] *)

(** [f"{v:.{digits}f}"] for a value of an [AVG] column: a float, or
    [None], which has no such format. *)
Definition py_format_f (digits : nat) (v : option double) : result string :=
  match v with
  | Some x => Ok (format_double digits x)
  | None => raise TypeError "unsupported format string passed to NoneType.__format__"
  end.

(** The f-string of the loop, its fields evaluated from left to right. *)
Definition summary_line (row : summary_row) : result string :=
  accuracy_text ← py_format_f 2 (avg_accuracy row);
  runtime_text ← py_format_f 0 (avg_runtime row);
  Ok ("- " ++ row_algorithm row
      ++ ": avg accuracy " ++ accuracy_text
      ++ ", avg runtime " ++ runtime_text
      ++ "ms (" ++ str_of_Z (simulation_count row) ++ " runs)")%string.

(** The loop over the rows: it stops at the first line that raises. *)
Fixpoint summary_lines_of (rows : list summary_row) : result (list string) :=
  match rows with
  | [] => Ok []
  | row :: rest =>
      line ← summary_line row;
      lines ← summary_lines_of rest;
      Ok (line :: lines)
  end.

Definition get_simulation_summary_try (d : database) (limit : Z) : result string :=
  get_db_connection d (fun conn =>
    table ← conn;
    limit ← sqlite_bind limit;
    let rows := select_summary limit table in
    match rows with
    | [] => Ok "No quantum simulation data available yet."
    | _ =>
        lines ← summary_lines_of rows;
        let summary_lines :=
          ["Recent quantum simulation performance:"] ++ lines in
        Ok (join newline summary_lines)
    end).

Definition get_simulation_summary (d : database) (limit : Z) : result string :=
  match get_simulation_summary_try d limit with
  | Ok text => Ok text
  | Raise e =>
      if is_sqlite3_Error e then Ok "Unable to retrieve simulation data."
      else Raise e
  end.

(** ** [validate_question] *)

Definition suspicious_keywords : list string :=
  ["<script"; "javascript:"; "data:"; "vbscript:"].

Definition validate_question (question : pyval) : result (bool * string) :=
  if negb (truthy question) then Ok (false, "No question provided")
  else
    question ← py_strip question;
    if negb (truthy (PStr question)) then Ok (false, "Empty question")
    else if Z.of_nat (String.length question) >? MAX_QUESTION_LENGTH then
      Ok (false,
          ("Question too long (max " ++ str_of_Z MAX_QUESTION_LENGTH
           ++ " characters)")%string)
    else if existsb (fun keyword => contains keyword (lower question))
              suspicious_keywords then
      Ok (false, "Invalid question content")
    else Ok (true, question).

(** ** [ask_quantum_ai] *)

Definition system_content (data_summary : string) : string :=
  ("You are a helpful quantum physics professor. Explain concepts clearly "
   ++ "with practical examples. Keep responses concise but informative."
   ++ newline ++ newline
   ++ data_summary ++ newline ++ newline
   ++ "Focus on practical applications and relate answers to simulation data when relevant. "
   ++ "If asked about topics outside quantum physics, politely redirect to quantum topics.")%string.

Definition ask_headers (req : request) (e : env) : list (string * string) :=
  [ ("Authorization", ("Bearer " ++ OPENROUTER_API_KEY e)%string);
    ("Content-Type", "application/json");
    ("HTTP-Referer", rstrip_char "/"%char (host_url req));
    ("X-Title", "Quantum Simulator") ].

Definition ask_payload (data_summary user_question : string) : pyval :=
  PDict [ ("model", PStr "openai/gpt-4o");
          ("messages",
           PList [ PDict [ ("role", PStr "system");
                           ("content", PStr (system_content data_summary)) ];
                   PDict [ ("role", PStr "user");
                           ("content", PStr user_question) ] ]);
          ("max_tokens", PInt 500);
          ("temperature", PFloat (7 # 10)) ].

(** The arguments of [requests.post]. *)
Definition ask_call (req : request) (e : env)
    (data_summary user_question : string) : outbound :=
  {| url := "https://openrouter.ai/api/v1/chat/completions";
     headers := ask_headers req e;
     data := ask_payload data_summary user_question;
     timeout := API_TIMEOUT |}.

(** The [try] block, from the upstream call on. *)
Definition ask_upstream (req : request) (e : env) (call : outbound)
  : result response :=
  response ← requests_post e call;
  _ ← raise_for_status response;
  data ← response_json response;
  has_choices ← py_contains "choices" data;
  malformed ←
    (if negb has_choices then Ok true
     else choices ← py_getitem data "choices"; Ok (negb (truthy choices)));
  if (malformed : bool) then
    Ok (jsonify_status [("error", PStr "Invalid response from AI service")] 500)
  else
    choices ← py_getitem data "choices";
    first ← py_getitem_0 choices;
    message ← py_getitem first "message";
    ai_response ← py_getitem message "content";
    Ok (jsonify [("answer", ai_response)]).

(** The [try] block: the calls made, and how the block ends. *)
Definition ask_try (req : request) (e : env) : list outbound * result response :=
  match json req with
  | Raise x => ([], Raise x)
  | Ok request_json =>
      if negb (truthy request_json) then
        ([], Ok (jsonify_status [("error", PStr "Invalid JSON data")] 400))
      else
        match py_get request_json "question" (PStr "") with
        | Raise x => ([], Raise x)
        | Ok user_question =>
            match validate_question user_question with
            | Raise x => ([], Raise x)
            | Ok (false, reason) =>
                ([], Ok (jsonify_status [("error", PStr reason)] 400))
            | Ok (true, user_question) =>
                match get_simulation_summary (db e) 5 with
                | Raise x => ([], Raise x)
                | Ok data_summary =>
                    let call := ask_call req e data_summary user_question in
                    ([call], ask_upstream req e call)
                end
            end
        end
  end.

(** The [except] clauses of [ask_quantum_ai], in their order. *)
Definition ask_except (x : exn) : response :=
  if is_Timeout x then
    jsonify_status
      [("error", PStr "AI service is currently slow. Please try again.")] 504
  else if is_RequestException x then
    jsonify_status [("error", PStr "AI service temporarily unavailable")] 503
  else if is_JSONDecodeError x then
    jsonify_status [("error", PStr "Invalid response from AI service")] 500
  else
    jsonify_status [("error", PStr "An unexpected error occurred")] 500.

(** The view function under the decorator. *)
Definition ask_quantum_ai_view : view := fun req e =>
  let '(calls, outcome) := ask_try req e in
  (calls, match outcome with Ok r => r | Raise x => ask_except x end).

(** [@rate_limit(max_requests=5, window_seconds=60)] on POST /api/ask. *)
Definition ask_quantum_ai :=
  rate_limit 5 60 ask_quantum_ai_view.

(** ** [get_quantum_data] *)

Definition get_quantum_data_try (req : request) (e : env) : result response :=
  let page := args_get req "page" 1 in
  let per_page := Z.min (args_get req "per_page" 50) 100 in
  let offset := (page - 1) * per_page in
  get_db_connection (db e) (fun conn =>
    table ← conn;
    let total := select_count (rows table) in
    limit ← sqlite_bind per_page;
    skip ← sqlite_bind offset;
    let rows := select_page limit skip (rows table) in
    let data := map dict_of_row rows in
    pages ← py_floordiv (total + per_page - 1) per_page;
    Ok (jsonify
          [ ("data", PList data);
            ("pagination",
             PDict [ ("page", PInt page);
                     ("per_page", PInt per_page);
                     ("total", PInt total);
                     ("pages", PInt pages) ]) ])).

Definition get_quantum_data (req : request) (e : env) : response :=
  match get_quantum_data_try req e with
  | Ok r => r
  | Raise x =>
      if is_sqlite3_Error x then
        jsonify_status [("error", PStr "Database error occurred")] 500
      else
        jsonify_status [("error", PStr "An unexpected error occurred")] 500
  end.

(** ** [health_check] *)

Definition health_check (req : request) (e : env) : response :=
  match get_db_connection (db e) (fun conn => Ok tt) with
  | Ok _ =>
      jsonify [ ("status", PStr "healthy");
                ("database", PStr "connected");
                ("timestamp", PFloat (time_time e)) ]
  | Raise x =>
      jsonify_status [ ("status", PStr "unhealthy");
                       ("error", PStr (str_of_exn x));
                       ("timestamp", PFloat (time_time e)) ] 500
  end.

(** [@app.errorhandler(404)] *)
Definition not_found : response :=
  jsonify_status [("error", PStr "Endpoint not found")] 404.

(** [@app.errorhandler(500)] *)
Definition internal_error : response :=
  jsonify_status [("error", PStr "Internal server error")] 500.

(** ** Vocabulary of the specification *)

(** The timestamps the limiter holds for a client; none for a client the
    dict has no key for. *)
Definition window_of (stamps : gmap string (list Q)) (client_ip : string)
  : list Q :=
  match stamps !! client_ip with Some l => l | None => [] end.

(** The limiter lets the request through: fewer than [max_requests]
    timestamps of its client are younger than the window. *)
Definition admits (max_requests : Z) (window_seconds : Q)
    (req : request) (e : env) (stamps : gmap string (list Q)) : bool :=
  Z.of_nat (length (clean window_seconds (time_time e)
                      (window_of stamps (remote_addr req)))) <? max_requests.

(** [request.json.get('question', '')] on a JSON object. *)
Definition question_of (fields : list (string * pyval)) : pyval :=
  match dict_lookup "question" fields with
  | Some q => q
  | None => PStr ""
  end.

(** The answer a completion body carries at
    [choices[0].message.content], when it has that shape. *)
Definition answer_of (data : pyval) : option pyval :=
  match data with
  | PDict fields =>
      match dict_lookup "choices" fields with
      | Some (PList (PDict first :: _)) =>
          match dict_lookup "message" first with
          | Some (PDict message) => dict_lookup "content" message
          | _ => None
          end
      | _ => None
      end
  | _ => None
  end.





(** [AVG(accuracy)] over the runs of the algorithm [a]. *)
Definition mean_accuracy (t : table) (a : string) : option double :=
  sql_avg t accuracy (group_rows a (rows t)).


(** [keyword] occurs in [s]. *)
Definition occurs_in (keyword s : string) : Prop :=
  exists before after, s = (before ++ keyword ++ after)%string.

Fixpoint whitespace (s : string) : Prop :=
  match s with
  | EmptyString => True
  | String c rest => isspace c = true /\ whitespace rest
  end.

(** [t] is [s] without its leading and trailing white space. *)
Definition trimmed (s t : string) : Prop :=
  exists leading trailing,
    s = (leading ++ t ++ trailing)%string
    /\ whitespace leading /\ whitespace trailing
    /\ (forall c rest, t = String c rest -> isspace c = false)
    /\ (forall rest c, t = (rest ++ String c EmptyString)%string ->
        isspace c = false).

(** ** Sample inputs *)

Definition too_many_requests : response :=
  jsonify_status [("error", PStr "Rate limit exceeded. Try again later.")] 429.

Definition sample_request (body : pyval) : request :=
  {| remote_addr := "203.0.113.7";
     host_url := "http://localhost:5002/";
     json := Ok body;
     args_int := fun _ => None |}.

(** A POST whose body is [{"question": ], which is not JSON. *)
Definition malformed_request : request :=
  {| remote_addr := "203.0.113.7";
     host_url := "http://localhost:5002/";
     json := raise BadRequest "Failed to decode JSON object";
     args_int := fun _ => None |}.

Definition sample_env (now : Q) (d : database)
    (post : outbound -> result upstream_response) : env :=
  {| OPENROUTER_API_KEY := "sk-or-test";
     time_time := now;
     db := d;
     requests_post := post |}.

Definition unreachable_upstream : outbound -> result upstream_response :=
  fun _ => raise ConnectionError "connection refused".

(** A store of 120 records with the ids "001" to "120", kept in
    descending order of id. *)
Definition numbered_record (i : nat) : SimulationRecord :=
  {| simulation_id := zfill 3 (str_of_Z (Z.of_nat i));
     algorithm := "VQE";
     qubits := 4;
     depth := 12;
     backend := "Statevector";
     runtime_ms := Some 55%Q;
     accuracy := Some (7 # 8);
     date_run := "2024-05-01";
     parameters := "{}" |}.

Definition records_120 : list SimulationRecord :=
  map numbered_record (rev (seq 1 120)).

Definition Qsum (l : list Q) : Q := fold_right Qplus 0%Q l.

(** The mean computed without rounding: what [AVG] returns whenever the
    running sum and the quotient are exact in double precision. *)
Definition exact_mean (values : list Q) : option double :=
  Some (Finite (Qsum values / inject_Z (Z.of_nat (length values)))).

(** A table of few rows, on an engine with exact means that leaves tied
    groups in their order of first appearance. *)
Definition sample_table (records : list SimulationRecord)
    (fit : Z.of_nat (length records) <= INT64_MAX) : table :=
  {| rows := records;
     rows_fit := fit;
     sql_avg_of := exact_mean;
     tie_rank := fun _ => 0%nat |}.

Definition empty_table : table :=
  sample_table [] ltac:(vm_compute; discriminate).

Definition store_120 : table :=
  sample_table records_120 ltac:(vm_compute; discriminate).

(** A GET request with the query string [?page=..&per_page=..]. *)
Definition page_request (page per_page : option Z) : request :=
  {| remote_addr := "203.0.113.7";
     host_url := "http://localhost:5002/";
     json := Ok PNone;
     args_int := fun key =>
       if String.eqb key "page" then page
       else if String.eqb key "per_page" then per_page
       else None |}.

(** The body of a successful GET /api/quantum-data. *)
Definition page_body (records : list SimulationRecord)
    (page per_page total pages : Z) : pyval :=
  PDict [ ("data", PList (map dict_of_row records));
          ("pagination",
           PDict [ ("page", PInt page);
                   ("per_page", PInt per_page);
                   ("total", PInt total);
                   ("pages", PInt pages) ]) ].

Definition store_env (d : database) : env :=
  sample_env 0 d unreachable_upstream.

(** The two 500 responses of POST /api/ask. *)
Definition invalid_upstream_response : response :=
  jsonify_status [("error", PStr "Invalid response from AI service")] 500.
Definition unexpected_error : response :=
  jsonify_status [("error", PStr "An unexpected error occurred")] 500.

(** A completion body that carries [answer], and an upstream service that
    returns it with a good status. *)
Definition completion_body (answer : string) : pyval :=
  PDict [ ("id", PStr "gen-1");
          ("choices",
           PList [ PDict [ ("index", PInt 0);
                           ("message",
                            PDict [ ("role", PStr "assistant");
                                    ("content", PStr answer) ]) ] ]) ].

Definition answering_upstream (answer : string)
  : outbound -> result upstream_response :=
  fun _ => Ok {| raise_for_status := Ok tt;
                 json_body := Some (completion_body answer) |}.

Definition superposition_request : request :=
  sample_request (PDict [("question", PStr "What is superposition?")]).

(** Runs of two algorithms: "A" with mean accuracy 0.90625 and "B" with
    mean accuracy 0.78125, the runs of "B" first. Every value, sum and
    mean is a binary fraction of few bits. *)
Definition run_of (id a : string) (acc rt : option Q) : SimulationRecord :=
  {| simulation_id := id;
     algorithm := a;
     qubits := 5;
     depth := 20;
     backend := "QASM";
     runtime_ms := rt;
     accuracy := acc;
     date_run := "2024-05-01";
     parameters := "{}" |}.

Definition runs_A_B : table :=
  sample_table
    [ run_of "r1" "B" (Some (3 # 4)) (Some 40%Q);
      run_of "r2" "A" (Some (15 # 16)) (Some 120%Q);
      run_of "r3" "B" (Some (13 # 16)) (Some 61%Q);
      run_of "r4" "A" (Some (7 # 8)) (Some 75%Q) ]
    ltac:(vm_compute; discriminate).

(** One run whose accuracy was not recorded. *)
Definition run_without_accuracy : table :=
  sample_table [ run_of "r1" "A" None (Some 40%Q) ]
    ltac:(vm_compute; discriminate).

(** ** The server over time *)

(** Requests to POST /api/ask in their order of arrival, each with the
    world it runs in. The dict of timestamps starts empty with the process
    and is handed from one request to the next; the result is that dict
    and the responses, in order. *)
Fixpoint serve (stamps : gmap string (list Q)) (arrivals : list (request * env))
  : gmap string (list Q) * list response :=
  match arrivals with
  | [] => (stamps, [])
  | (req, e) :: rest =>
      let '(stamps, (_, r)) := ask_quantum_ai req e stamps in
      let '(final, responses) := serve stamps rest in
      (final, r :: responses)
  end.

(** The limiter let the request through: the answer is not 429. *)
Definition admitted (r : response) : bool := negb (status r =? 429).

(** [now] lies in the window of length [width] that opens at [t]. *)
Definition in_window (t width now : Q) : bool :=
  Qle_bool t now && Qltb now (t + width).

(** The number of requests of [client_ip] that arrived in the window of 60
    seconds that opens at [t] and were admitted. *)
Definition admissions (client_ip : string) (t : Q)
    (arrivals : list (request * env)) (responses : list response) : nat :=
  length
    (List.filter
       (fun x : request * env * response =>
          String.eqb (remote_addr (fst (fst x))) client_ip
          && in_window t 60 (time_time (snd (fst x)))
          && admitted (snd x))
       (combine arrivals responses)).

(** Arrivals in the order of the clock. *)
Definition chronological (arrivals : list (request * env)) : Prop :=
  StronglySorted
    (fun a b => (time_time (snd a) <= time_time (snd b))%Q) arrivals.

(** A request from [client_ip] at the time [now]. *)
Definition ask_at (client_ip : string) (now : Q) : request * env :=
  ({| remote_addr := client_ip;
      host_url := "http://localhost:5002/";
      json := Ok (PDict [("question", PStr "What is superposition?")]);
      args_int := fun _ => None |},
   sample_env now (Simulations empty_table)
     (answering_upstream "A state that is a sum of basis states.")).

(** No client has more than five timestamps on record. *)
Definition bounded (stamps : gmap string (list Q)) : Prop :=
  forall client_ip, (length (window_of stamps client_ip) <= 5)%nat.

(** The number of timestamps in [l] that are not before [t]. *)
Definition since (t : Q) (l : list Q) : nat :=
  length (List.filter (fun ts => Qle_bool t ts) l).

(** Six requests of one client within one minute, and a seventh exactly 60
    seconds after the first. *)
Definition burst : list (request * env) :=
  map (ask_at "203.0.113.7") [0; 5; 10; 15; 20; 25; 60]%Q.

(** ** Further vocabulary *)

(** The request comes from [client_ip]. *)
Definition from_client (client_ip : string) (a : request * env) : bool :=
  String.eqb (remote_addr (fst a)) client_ip.

(** The answers given to the requests of [client_ip], in order. *)
Definition answers_to (client_ip : string)
    (arrivals : list (request * env)) (responses : list response)
  : list response :=
  map snd
    (List.filter (fun x : request * env * response => from_client client_ip (fst x))
       (combine arrivals responses)).

(** Six requests with an empty JSON object as body, one second apart. *)
Definition empty_body_burst : list (request * env) :=
  map (fun now => (sample_request (PDict []),
                   sample_env now (Simulations empty_table) unreachable_upstream))
    [0; 1; 2; 3; 4; 5]%Q.

(** A view under [@rate_limit(max_requests, window_seconds)] over time:
    for each request, whether the decorator called the view, and what the
    decorated view returned. *)
Fixpoint limited_run (max_requests : Z) (window_seconds : Q) (f : view)
    (stamps : gmap string (list Q)) (arrivals : list (request * env))
  : gmap string (list Q) * list (bool * (list outbound * response)) :=
  match arrivals with
  | [] => (stamps, [])
  | (req, e) :: rest =>
      let called := admits max_requests window_seconds req e stamps in
      let '(stamps, out) :=
        rate_limit max_requests window_seconds f req e stamps in
      let '(final, outs) :=
        limited_run max_requests window_seconds f stamps rest in
      (final, (called, out) :: outs)
  end.

(** The number of requests of [client_ip] in the window of length
    [window_seconds] that opens at [t] for which the view was called. *)
Definition calls_in_window (client_ip : string) (t window_seconds : Q)
    (arrivals : list (request * env))
    (run : list (bool * (list outbound * response))) : nat :=
  length
    (List.filter
       (fun x : request * env * (bool * (list outbound * response)) =>
          from_client client_ip (fst x)
          && in_window t window_seconds (time_time (snd (fst x)))
          && fst (snd x))
       (combine arrivals run)).

(** The list under the key [data] of a response of GET /api/quantum-data. *)
Definition data_of (r : response) : list pyval :=
  match body r with
  | PDict (("data", PList records) :: _) => records
  | _ => []
  end.

Definition Zsum (l : list Z) : Z := fold_right Z.add 0 l.

(** The request of [Test_Flask.py]: [requests.post(API_URL, json=payload,
    headers=headers, stream=True)] with its [payload], as the server that
    listens at [API_URL] reads it. *)
Definition test_flask_payload : pyval :=
  PDict [ ("prompt", PStr "What is the capital of France?");
          ("service_context", PStr "general") ].

Definition test_flask_request (client_ip host : string) : request :=
  {| remote_addr := client_ip;
     host_url := host;
     json := Ok test_flask_payload;
     args_int := fun _ => None |}.

(** * Properties *)

(** ** Rational comparisons *)

Lemma Qltb_lt (x y : Q) : Qltb x y = true <-> (x < y)%Q.
Proof.
  unfold Qltb. rewrite negb_true_iff. split.
  - intros H. apply Qnot_le_lt. intros Hle.
    apply Qle_bool_iff in Hle. congruence.
  - intros H. destruct (Qle_bool y x) eqn:E; [|reflexivity].
    apply Qle_bool_iff in E. exfalso. apply (Qlt_not_le _ _ H E).
Qed.

Lemma Qltb_ge (x y : Q) : Qltb x y = false <-> (y <= x)%Q.
Proof.
  unfold Qltb. rewrite negb_false_iff. apply Qle_bool_iff.
Qed.

(** ** Strings *)

Local Arguments String.append !_ _ / : simpl nomatch.
Local Arguments String.length !_ / : simpl nomatch.

Ltac conjs := repeat match goal with |- _ /\ _ => split end.

Lemma prefix_iff (keyword s : string) :
  String.prefix keyword s = true <-> exists after, s = (keyword ++ after)%string.
Proof.
  revert s. induction keyword as [|k keyword IH]; intros s.
  - split; [intros _; now exists s | intros _; now destruct s].
  - destruct s as [|c s]; simpl.
    + split; [discriminate | intros [after H]; discriminate].
    + destruct (Ascii.ascii_dec k c) as [->|Hne].
      * rewrite IH. split; intros [after H]; exists after; congruence.
      * split; [discriminate | intros [after H]; congruence].
Qed.

Lemma contains_nil (keyword : string) :
  contains keyword "" = String.prefix keyword "" || false.
Proof. reflexivity. Qed.

Lemma contains_cons (keyword : string) (c : ascii) (s : string) :
  contains keyword (String c s)
  = String.prefix keyword (String c s) || contains keyword s.
Proof. reflexivity. Qed.

Lemma contains_iff (keyword s : string) :
  contains keyword s = true <-> occurs_in keyword s.
Proof.
  unfold occurs_in. induction s as [|c s IH].
  - rewrite contains_nil, orb_false_r, prefix_iff. split.
    + intros [after H]. now exists "", after.
    + intros [[|b before] [after H]]; [now exists after | discriminate].
  - rewrite contains_cons, orb_true_iff, prefix_iff, IH. split.
    + intros [[after H] | (before & after & H)].
      * now exists "", after.
      * exists (String c before), after. simpl. now rewrite H.
    + intros ([|b before] & after & H).
      * left. now exists after.
      * right. exists before, after. simpl in H. congruence.
Qed.

Lemma lstrip_spec (s : string) :
  exists leading, s = (leading ++ lstrip s)%string /\ whitespace leading
    /\ (forall c rest, lstrip s = String c rest -> isspace c = false).
Proof.
  induction s as [|c s (leading & Heq & Hws & Hfirst)]; simpl.
  - exists "". conjs; [reflexivity | exact I | discriminate].
  - destruct (isspace c) eqn:Hc.
    + exists (String c leading). simpl. rewrite <- Heq.
      conjs; [reflexivity | exact Hc | exact Hws | exact Hfirst].
    + exists "". conjs; [reflexivity | exact I |].
      intros c' rest H. injection H as <- _. exact Hc.
Qed.

Lemma rstrip_spec (s : string) :
  exists trailing, s = (rstrip s ++ trailing)%string /\ whitespace trailing
    /\ (forall rest c, rstrip s = (rest ++ String c "")%string ->
        isspace c = false)
    /\ (forall c rest, s = String c rest -> isspace c = false ->
        exists rest', rstrip s = String c rest').
Proof.
  induction s as [|c s (trailing & Heq & Hws & Hlast & _)]; simpl.
  - exists "". conjs; [reflexivity | exact I | | discriminate].
    intros [|x rest] c; discriminate.
  - destruct (rstrip s) as [|k kept] eqn:Hr.
    + simpl in Heq. subst s. destruct (isspace c) eqn:Hc.
      * exists (String c trailing). simpl.
        conjs; [reflexivity | exact Hc | exact Hws | |].
        -- intros [|x rest] c'; discriminate.
        -- intros c' rest H H'. injection H as <- _. congruence.
      * exists trailing. simpl. conjs; [reflexivity | exact Hws | |].
        -- intros [|x rest] c'; simpl; intros H.
           ++ injection H as <-. exact Hc.
           ++ injection H as _ H. destruct rest; discriminate.
        -- intros c' rest H _. injection H as <- _. now exists "".
    + exists trailing.
      conjs; [simpl in *; congruence | exact Hws | |].
      * intros [|x rest] c'; simpl; intros H.
        -- injection H as _ H. discriminate.
        -- injection H as _ H. apply (Hlast rest c'). exact H.
      * intros c' rest H _. injection H as <- _. now exists (String k kept).
Qed.

Lemma strip_trimmed (s : string) : trimmed s (strip s).
Proof.
  unfold trimmed, strip.
  destruct (lstrip_spec s) as (leading & Heq & Hws & Hfirst).
  destruct (rstrip_spec (lstrip s)) as (trailing & Heq' & Hws' & Hlast & Hkeep).
  exists leading, trailing. conjs; try assumption.
  - rewrite <- Heq'. exact Heq.
  - intros c rest Hr. destruct (lstrip s) as [|c' rest'] eqn:Hl.
    + discriminate.
    + destruct (Hkeep c' rest' eq_refl (Hfirst _ _ eq_refl)) as [r Hr'].
      rewrite Hr' in Hr. injection Hr as <- _. now apply (Hfirst c' rest').
Qed.

Lemma whitespace_lstrip (s : string) : whitespace s -> lstrip s = "".
Proof.
  induction s as [|c s IH]; simpl; [reflexivity|].
  intros [Hc Hs]. rewrite Hc. now apply IH.
Qed.

Lemma strip_empty_iff (s : string) : strip s = "" <-> whitespace s.
Proof.
  split.
  - intros H. destruct (strip_trimmed s) as (a & b & Heq & Ha & Hb & _).
    rewrite H in Heq. simpl in Heq. subst s. clear H.
    induction a as [|c a IH]; simpl; [exact Hb|].
    destruct Ha as [Hc Ha]. split; [exact Hc | now apply IH].
  - intros H. unfold strip. now rewrite whitespace_lstrip.
Qed.

(** ** [validate_question] *)

Lemma suspicious_iff (t : string) :
  existsb (fun keyword => contains keyword (lower t)) suspicious_keywords = true
  <-> exists keyword, In keyword suspicious_keywords
                       /\ occurs_in keyword (lower t).
Proof.
  rewrite existsb_exists. split; intros (k & Hin & H); exists k;
    (split; [exact Hin | now apply contains_iff]).
Qed.

(** The four checks of [validate_question] on a string, in their order. *)
Lemma validate_question_str (s : string) :
  validate_question (PStr s) =
    if String.eqb s "" then Ok (false, "No question provided")
    else if String.eqb (strip s) "" then Ok (false, "Empty question")
    else if (1000 <? String.length (strip s))%nat then
      Ok (false, "Question too long (max 1000 characters)")
    else if existsb (fun keyword => contains keyword (lower (strip s)))
              suspicious_keywords then
      Ok (false, "Invalid question content")
    else Ok (true, strip s).
Proof.
  unfold validate_question. simpl truthy.
  destruct (String.eqb s "") eqn:Hs; simpl; [reflexivity|].
  destruct (String.eqb (strip s) "") eqn:Ht; simpl; [reflexivity|].
  unfold MAX_QUESTION_LENGTH.
  destruct (1000 <? String.length (strip s))%nat eqn:Hlen.
  - apply Nat.ltb_lt in Hlen.
    replace (Z.of_nat (String.length (strip s)) >? 1000) with true
      by (symmetry; apply Z.gtb_lt; lia).
    reflexivity.
  - apply Nat.ltb_ge in Hlen.
    replace (Z.of_nat (String.length (strip s)) >? 1000) with false
      by (symmetry; rewrite Z.gtb_ltb; apply Z.ltb_ge; lia).
    reflexivity.
Qed.

(** C3. [validate_question] rejects an absent or empty input, then a
    white-space-only input, then an input whose trimmed text is longer than
    1000 characters, then an input whose trimmed and lowercased text
    contains one of the four suspicious keywords, each check made only when
    the ones before it passed; every other text is accepted and returned
    with its surrounding white space removed and nothing else changed. *)
Theorem validate_question_checks :
  validate_question PNone = Ok (false, "No question provided")
  /\ validate_question (PStr "<script>alert(1)</script>")
     = Ok (false, "Invalid question content")
  /\ forall s : string,
       trimmed s (strip s)
       /\ (s = "" ->
           validate_question (PStr s) = Ok (false, "No question provided"))
       /\ (s <> "" -> whitespace s ->
           validate_question (PStr s) = Ok (false, "Empty question"))
       /\ (~ whitespace s -> (1000 < String.length (strip s))%nat ->
           validate_question (PStr s)
           = Ok (false, "Question too long (max 1000 characters)"))
       /\ (~ whitespace s -> (String.length (strip s) <= 1000)%nat ->
           (exists keyword,
               In keyword ["<script"; "javascript:"; "data:"; "vbscript:"]
               /\ occurs_in keyword (lower (strip s))) ->
           validate_question (PStr s) = Ok (false, "Invalid question content"))
       /\ (~ whitespace s -> (String.length (strip s) <= 1000)%nat ->
           (forall keyword,
               In keyword ["<script"; "javascript:"; "data:"; "vbscript:"] ->
               ~ occurs_in keyword (lower (strip s))) ->
           validate_question (PStr s) = Ok (true, strip s)).
Proof.
  split; [reflexivity|]. split; [reflexivity|].
  intros s. split; [apply strip_trimmed|].
  assert (Hne : ~ whitespace s -> String.eqb s "" = false
                                  /\ String.eqb (strip s) "" = false).
  { intros Hws. split; apply String.eqb_neq; intros H; apply Hws.
    - subst s. exact I.
    - now apply strip_empty_iff. }
  rewrite validate_question_str. conjs.
  - intros ->. reflexivity.
  - intros Hs Hws. apply String.eqb_neq in Hs. rewrite Hs.
    apply strip_empty_iff in Hws. rewrite Hws. reflexivity.
  - intros Hws Hlen. destruct (Hne Hws) as [-> ->].
    apply Nat.ltb_lt in Hlen. now rewrite Hlen.
  - intros Hws Hlen Hkw. destruct (Hne Hws) as [-> ->].
    apply Nat.ltb_ge in Hlen. rewrite Hlen.
    apply suspicious_iff in Hkw. now rewrite Hkw.
  - intros Hws Hlen Hkw. destruct (Hne Hws) as [-> ->].
    apply Nat.ltb_ge in Hlen. rewrite Hlen.
    destruct (existsb _ suspicious_keywords) eqn:E; [|reflexivity].
    apply suspicious_iff in E. destruct E as (k & Hin & Hocc).
    exfalso. exact (Hkw k Hin Hocc).
Qed.

Lemma not_occurs_in (keyword s : string) :
  contains keyword s = false -> ~ occurs_in keyword s.
Proof.
  intros H Hocc. apply contains_iff in Hocc. congruence.
Qed.

Lemma validate_question_checks_witness :
  validate_question (PStr "  What is superposition?  ")
  = Ok (true, "What is superposition?").
Proof.
  destruct validate_question_checks as (_ & _ & H).
  destruct (H "  What is superposition?  ") as (_ & _ & _ & _ & _ & Haccept).
  apply Haccept.
  - intros (_ & _ & Hc & _). vm_compute in Hc. discriminate Hc.
  - vm_compute. lia.
  - intros keyword Hin. apply not_occurs_in.
    simpl in Hin.
    destruct Hin as [<- | [<- | [<- | [<- | []]]]]; reflexivity.
Defined.

Example validate_question_1001 :
  validate_question (PStr (string_of_list (repeat "a"%char 1001)))
  = Ok (false, "Question too long (max 1000 characters)").
Proof. vm_compute. reflexivity. Qed.

Example validate_question_999 :
  validate_question
    (PStr (" " ++ string_of_list (repeat "a"%char 999) ++ " ")%string)
  = Ok (true, string_of_list (repeat "a"%char 999)).
Proof. vm_compute. reflexivity. Qed.

Example validate_question_blank :
  validate_question (PStr "") = Ok (false, "No question provided")
  /\ validate_question (PStr "   ") = Ok (false, "Empty question").
Proof. split; reflexivity. Qed.

(** The length check comes before the keyword check. *)
Example validate_question_long_script :
  validate_question
    (PStr ("<script" ++ string_of_list (repeat "a"%char 1000))%string)
  = Ok (false, "Question too long (max 1000 characters)").
Proof. vm_compute. reflexivity. Qed.

(** ** The decorator [rate_limit], one request at a time *)

Lemma rate_limit_unfold (max_requests : Z) (window_seconds : Q) (f : view)
    (req : request) (e : env) (stamps : gmap string (list Q)) :
  let kept := clean window_seconds (time_time e)
                (window_of stamps (remote_addr req)) in
  rate_limit max_requests window_seconds f req e stamps =
    if admits max_requests window_seconds req e stamps
    then (<[remote_addr req := kept ++ [time_time e]]> stamps, f req e)
    else (<[remote_addr req := kept]> stamps, ([], too_many_requests)).
Proof.
  cbn zeta. unfold rate_limit, admits, window_of.
  replace (match stamps !! remote_addr req with
           | Some l => clean window_seconds (time_time e) l
           | None => []
           end)
    with (clean window_seconds (time_time e)
            (match stamps !! remote_addr req with
             | Some l => l
             | None => []
             end))
    by (destruct (stamps !! remote_addr req); reflexivity).
  rewrite Z.leb_antisym.
  destruct (_ <? max_requests); cbn [negb];
    rewrite ?insert_insert_eq; reflexivity.
Qed.

Lemma rate_limit_admitted (max_requests : Z) (window_seconds : Q) (f : view)
    (req : request) (e : env) (stamps : gmap string (list Q)) :
  admits max_requests window_seconds req e stamps = true ->
  rate_limit max_requests window_seconds f req e stamps =
    (<[remote_addr req :=
         clean window_seconds (time_time e)
           (window_of stamps (remote_addr req)) ++ [time_time e]]> stamps,
     f req e).
Proof. intros H. rewrite rate_limit_unfold. cbn zeta. now rewrite H. Qed.

Lemma rate_limit_rejected (max_requests : Z) (window_seconds : Q) (f : view)
    (req : request) (e : env) (stamps : gmap string (list Q)) :
  admits max_requests window_seconds req e stamps = false ->
  rate_limit max_requests window_seconds f req e stamps =
    (<[remote_addr req :=
         clean window_seconds (time_time e)
           (window_of stamps (remote_addr req))]> stamps,
     ([], too_many_requests)).
Proof. intros H. rewrite rate_limit_unfold. cbn zeta. now rewrite H. Qed.

Lemma admits_empty (req : request) (e : env) : admits 5 60 req e ∅ = true.
Proof. reflexivity. Qed.

(** ** POST /api/ask: the request body *)

(** C8. On a request the limiter lets through, the empty JSON object is
    answered 400 "Invalid JSON data", and a non-empty JSON object without
    the key [question] is answered 400 "No question provided"; neither
    calls the upstream service. *)
Theorem ask_empty_object_or_missing_question
    (req : request) (e : env) (stamps : gmap string (list Q)) :
  admits 5 60 req e stamps = true ->
  (json req = Ok (PDict []) ->
   snd (ask_quantum_ai req e stamps)
   = ([], jsonify_status [("error", PStr "Invalid JSON data")] 400))
  /\ (forall d, json req = Ok (PDict d) -> d <> [] ->
      dict_lookup "question" d = None ->
      snd (ask_quantum_ai req e stamps)
      = ([], jsonify_status [("error", PStr "No question provided")] 400)).
Proof.
  intros Hadm. unfold ask_quantum_ai.
  rewrite (rate_limit_admitted _ _ _ _ _ _ Hadm). cbn [snd].
  unfold ask_quantum_ai_view, ask_try. split.
  - intros ->. reflexivity.
  - intros d -> Hd Hq. destruct d as [|kv d]; [contradiction|].
    cbn [truthy negb py_get]. rewrite Hq. reflexivity.
Qed.

Lemma ask_empty_object_or_missing_question_witness :
  snd (ask_quantum_ai (sample_request (PDict []))
         (sample_env 0 (Simulations empty_table) unreachable_upstream) ∅)
  = ([], jsonify_status [("error", PStr "Invalid JSON data")] 400)
  /\ snd (ask_quantum_ai (sample_request (PDict [("prompt", PStr "hello")]))
            (sample_env 0 (Simulations empty_table) unreachable_upstream) ∅)
     = ([], jsonify_status [("error", PStr "No question provided")] 400).
Proof.
  split.
  - apply (ask_empty_object_or_missing_question
             (sample_request (PDict []))
             (sample_env 0 (Simulations empty_table) unreachable_upstream) ∅);
      reflexivity.
  - apply (ask_empty_object_or_missing_question
             (sample_request (PDict [("prompt", PStr "hello")]))
             (sample_env 0 (Simulations empty_table) unreachable_upstream) ∅
             (admits_empty _ _)) with (d := [("prompt", PStr "hello")]);
      [reflexivity | discriminate | reflexivity].
Defined.

(** C9. A request the limiter lets through whose [question] is the number
    123 makes [validate_question] raise [AttributeError] at [.strip()]; the
    catch-all clause answers 500 "An unexpected error occurred", not 400,
    and the upstream service is not called. The same holds for every
    truthy value of [question] that is not a string. *)
Theorem ask_non_string_question
    (req : request) (e : env) (stamps : gmap string (list Q)) (d : list (string * pyval))
    (q : pyval) :
  admits 5 60 req e stamps = true ->
  json req = Ok (PDict d) ->
  dict_lookup "question" d = Some q ->
  truthy q = true ->
  (forall s, q <> PStr s) ->
  (exists text, validate_question q = Raise (Exn AttributeError text))
  /\ snd (ask_quantum_ai req e stamps)
     = ([], jsonify_status [("error", PStr "An unexpected error occurred")] 500).
Proof.
  intros Hadm Hjson Hq Htruthy Hstr.
  assert (Hv : validate_question q
               = Raise (Exn AttributeError "object has no attribute 'strip'")).
  { unfold validate_question. rewrite Htruthy. cbn [negb].
    destruct q; try reflexivity. exfalso. now apply (Hstr s). }
  split; [eexists; exact Hv|].
  unfold ask_quantum_ai.
  rewrite (rate_limit_admitted _ _ _ _ _ _ Hadm). cbn [snd].
  unfold ask_quantum_ai_view, ask_try. rewrite Hjson.
  destruct d as [|kv d]; [discriminate|].
  cbn [truthy negb py_get]. rewrite Hq, Hv. reflexivity.
Qed.

Lemma ask_non_string_question_witness :
  (exists text, validate_question (PInt 123) = Raise (Exn AttributeError text))
  /\ snd (ask_quantum_ai (sample_request (PDict [("question", PInt 123)]))
            (sample_env 0 (Simulations empty_table) unreachable_upstream) ∅)
     = ([], jsonify_status [("error", PStr "An unexpected error occurred")] 500).
Proof.
  apply (ask_non_string_question
           (sample_request (PDict [("question", PInt 123)]))
           (sample_env 0 (Simulations empty_table) unreachable_upstream) ∅
           [("question", PInt 123)] (PInt 123));
    try reflexivity.
  intros s. discriminate.
Defined.

(** ** [get_simulation_summary]: what it returns and what it catches *)

Lemma fits_int64_iff (z : Z) :
  fits_int64 z = true <-> INT64_MIN <= z <= INT64_MAX.
Proof.
  unfold fits_int64.
  destruct (Z.leb_spec INT64_MIN z); destruct (Z.leb_spec z INT64_MAX);
    cbn [andb]; split; intros; try lia; try discriminate; reflexivity.
Qed.

Lemma sqlite_bind_fits (z : Z) :
  INT64_MIN <= z <= INT64_MAX -> sqlite_bind z = Ok z.
Proof.
  intros H. apply fits_int64_iff in H. unfold sqlite_bind. now rewrite H.
Qed.

Lemma sqlite_bind_overflow (z : Z) :
  z < INT64_MIN \/ INT64_MAX < z ->
  sqlite_bind z
  = Raise (Exn OverflowError "Python int too large to convert to SQLite INTEGER").
Proof.
  intros H. unfold sqlite_bind.
  destruct (fits_int64 z) eqn:E; [|reflexivity].
  apply fits_int64_iff in E. lia.
Qed.

(** The loop over the rows raises nothing but the [TypeError] of a NULL
    average. *)
Lemma summary_line_raise (g : summary_row) (x : exn) :
  summary_line g = Raise x ->
  exn_class_of x = TypeError
  /\ (avg_accuracy g = None \/ avg_runtime g = None).
Proof.
  unfold summary_line.
  destruct (avg_accuracy g) as [acc|]; cbn [py_format_f mbind result_bind raise].
  - destruct (avg_runtime g) as [rt|]; cbn [py_format_f mbind result_bind raise].
    + discriminate.
    + intros [= <-]. split; [reflexivity | now right].
  - intros [= <-]. split; [reflexivity | now left].
Qed.

Lemma summary_lines_of_raise (groups : list summary_row) (x : exn) :
  summary_lines_of groups = Raise x ->
  exn_class_of x = TypeError
  /\ exists g, In g groups /\ (avg_accuracy g = None \/ avg_runtime g = None).
Proof.
  induction groups as [|g groups IH]; cbn [summary_lines_of]; [discriminate|].
  destruct (summary_line g) as [line|y] eqn:Hline; cbn [mbind result_bind].
  - destruct (summary_lines_of groups) as [lines|y]; cbn [mbind result_bind];
      [discriminate|].
    intros [= <-]. destruct (IH eq_refl) as [Hc (h & Hin & Hnull)].
    split; [exact Hc|]. exists h. split; [now right | exact Hnull].
  - intros [= <-]. destruct (summary_line_raise _ _ Hline) as [Hc Hnull].
    split; [exact Hc|]. exists g. split; [now left | exact Hnull].
Qed.

Lemma summary_line_ok (g : summary_row) (acc rt : double) :
  avg_accuracy g = Some acc -> avg_runtime g = Some rt ->
  summary_line g
  = Ok ("- " ++ row_algorithm g
        ++ ": avg accuracy " ++ format_double 2 acc
        ++ ", avg runtime " ++ format_double 0 rt
        ++ "ms (" ++ str_of_Z (simulation_count g) ++ " runs)")%string.
Proof. intros Ha Hr. unfold summary_line. now rewrite Ha, Hr. Qed.

Lemma summary_lines_of_ok (groups : list summary_row) :
  (forall g, In g groups -> avg_accuracy g <> None /\ avg_runtime g <> None) ->
  exists lines,
    summary_lines_of groups = Ok lines
    /\ Forall2 (fun g line => summary_line g = Ok line) groups lines.
Proof.
  induction groups as [|g groups IH]; intros Hall.
  - exists []. split; [reflexivity | constructor].
  - destruct IH as (lines & Hlines & Hall2).
    { intros h Hh. apply Hall. now right. }
    destruct (Hall g (or_introl eq_refl)) as [Ha Hr].
    destruct (avg_accuracy g) as [acc|] eqn:Eacc; [|contradiction].
    destruct (avg_runtime g) as [rt|] eqn:Ert; [|contradiction].
    pose proof (summary_line_ok g acc rt Eacc Ert) as Hline.
    eexists. cbn [summary_lines_of]. rewrite Hline, Hlines.
    cbn [mbind result_bind]. split; [reflexivity|].
    constructor; [exact Hline | exact Hall2].
Qed.

(** The function on a table that is there, with a limit that fits. *)
Lemma get_simulation_summary_rows (t : table) (limit : Z) :
  INT64_MIN <= limit <= INT64_MAX ->
  get_simulation_summary (Simulations t) limit =
    match select_summary limit t with
    | [] => Ok "No quantum simulation data available yet."
    | groups =>
        lines ← summary_lines_of groups;
        Ok (join newline ("Recent quantum simulation performance:" :: lines))
    end.
Proof.
  intros Hfit.
  unfold get_simulation_summary, get_simulation_summary_try.
  cbn [get_db_connection mbind result_bind].
  rewrite (sqlite_bind_fits _ Hfit). cbn [mbind result_bind].
  destruct (select_summary limit t) as [|g groups]; [reflexivity|].
  destruct (summary_lines_of (g :: groups)) as [lines|x] eqn:Hlines;
    cbn [mbind result_bind]; [reflexivity|].
  destruct (summary_lines_of_raise _ _ Hlines) as [Hc _].
  unfold is_sqlite3_Error. now rewrite Hc.
Qed.

Lemma get_simulation_summary_overflow (t : table) (limit : Z) :
  limit < INT64_MIN \/ INT64_MAX < limit ->
  get_simulation_summary (Simulations t) limit
  = Raise (Exn OverflowError "Python int too large to convert to SQLite INTEGER").
Proof.
  intros H.
  unfold get_simulation_summary, get_simulation_summary_try.
  cbn [get_db_connection mbind result_bind].
  now rewrite (sqlite_bind_overflow _ H).
Qed.

Lemma select_summary_empty (t : table) (limit : Z) :
  rows t = [] -> select_summary limit t = [].
Proof.
  intros H. unfold select_summary, ranking, sql_limit. rewrite H.
  cbn [group_keys map order_by fold_right].
  destruct (limit <? 0); [reflexivity|]. now rewrite firstn_nil.
Qed.

(** C4, as the code has it. [get_simulation_summary] never returns the
    empty string. On a table without rows it returns the sentence "No
    quantum simulation data available yet."; when the store cannot be
    opened or queried it returns the other fixed sentence "Unable to
    retrieve simulation data.". What it raises is never an
    [sqlite3.Error], and it raises nothing when the limit fits 64 bits and
    no selected group has a NULL average. *)
Theorem get_simulation_summary_total :
  (forall d limit text, get_simulation_summary d limit = Ok text -> text <> "")
  /\ (forall t limit,
      rows t = [] -> INT64_MIN <= limit <= INT64_MAX ->
      get_simulation_summary (Simulations t) limit
      = Ok "No quantum simulation data available yet.")
  /\ (forall text limit,
      get_simulation_summary (Unavailable text) limit
      = Ok "Unable to retrieve simulation data.")
  /\ (forall text limit,
      get_simulation_summary (NoSuchTable text) limit
      = Ok "Unable to retrieve simulation data.")
  /\ (forall d limit x,
      get_simulation_summary d limit = Raise x -> is_sqlite3_Error x = false)
  /\ (forall t limit,
      INT64_MIN <= limit <= INT64_MAX ->
      (forall g, In g (select_summary limit t) ->
                 avg_accuracy g <> None /\ avg_runtime g <> None) ->
      exists text, get_simulation_summary (Simulations t) limit = Ok text).
Proof.
  conjs.
  - intros [text' | text' | t] limit text.
    + intros [= <-]. discriminate.
    + intros [= <-]. discriminate.
    + destruct (Z_le_dec INT64_MIN limit) as [Hlo|Hlo];
        [destruct (Z_le_dec limit INT64_MAX) as [Hhi|Hhi]|].
      * rewrite get_simulation_summary_rows by lia.
        destruct (select_summary limit t) as [|g groups].
        -- intros [= <-]. discriminate.
        -- destruct (summary_lines_of (g :: groups)) as [lines|x];
             cbn [mbind result_bind]; [|discriminate].
           intros [= <-]. destruct lines; discriminate.
      * rewrite get_simulation_summary_overflow by lia. discriminate.
      * rewrite get_simulation_summary_overflow by lia. discriminate.
  - intros t limit Hrows Hfit. rewrite get_simulation_summary_rows by exact Hfit.
    now rewrite select_summary_empty.
  - reflexivity.
  - reflexivity.
  - intros d limit x. unfold get_simulation_summary.
    destruct (get_simulation_summary_try d limit) as [text|y]; [discriminate|].
    destruct (is_sqlite3_Error y) eqn:Hy; [discriminate|].
    now intros [= <-].
  - intros t limit Hfit Hall. rewrite get_simulation_summary_rows by exact Hfit.
    destruct (select_summary limit t) as [|g groups]; [eexists; reflexivity|].
    destruct (summary_lines_of_ok _ Hall) as (lines & -> & _).
    eexists. reflexivity.
Qed.

Lemma get_simulation_summary_total_witness :
  get_simulation_summary (Simulations empty_table) 5
  = Ok "No quantum simulation data available yet."
  /\ "No quantum simulation data available yet." <> "".
Proof.
  destruct get_simulation_summary_total as (Hne & Hempty & _).
  assert (H : get_simulation_summary (Simulations empty_table) 5
              = Ok "No quantum simulation data available yet.").
  { apply Hempty; [reflexivity | unfold INT64_MIN, INT64_MAX; lia]. }
  split; [exact H | exact (Hne _ _ _ H)].
Defined.

(** The sentence for a failing store is not the sentence for an empty one. *)
Lemma get_simulation_summary_failure_differs :
  get_simulation_summary (Unavailable "unable to open database file") 5
  = Ok "Unable to retrieve simulation data."
  /\ get_simulation_summary (Simulations empty_table) 5
     = Ok "No quantum simulation data available yet."
  /\ get_simulation_summary (Unavailable "unable to open database file") 5
     <> get_simulation_summary (Simulations empty_table) 5.
Proof.
  split; [reflexivity|]. split; [reflexivity|]. discriminate.
Qed.

(** ** GET /api/health *)

(** C7, at the input where the code departs from it. When the store cannot
    be opened, [health_check] puts the text of the exception into the
    field [error] of the response body. *)
Theorem health_check_exposes_exception_text
    (req : request) (key : string) (now : Q)
    (post : outbound -> result upstream_response) (text : string) :
  health_check req
    {| OPENROUTER_API_KEY := key; time_time := now;
       db := Unavailable text; requests_post := post |}
  = {| status := 500;
       body := PDict [ ("status", PStr "unhealthy");
                       ("error", PStr text);
                       ("timestamp", PFloat now) ] |}.
Proof. reflexivity. Qed.

(** Two failures that differ only in the exception's text are told apart
    by the client. *)
Lemma health_check_depends_on_exception_text :
  body (health_check (sample_request PNone)
          (sample_env 0 (Unavailable "unable to open database file")
             unreachable_upstream))
  <> body (health_check (sample_request PNone)
             (sample_env 0 (Unavailable "file is not a database: /srv/keys.db")
                unreachable_upstream)).
Proof. discriminate. Qed.

(** The other views answer a failure with a message that is fixed in the
    code: no exception text reaches the body. *)
Lemma ask_except_generic (c : exn_class) (text text' : string) :
  ask_except (Exn c text) = ask_except (Exn c text').
Proof. reflexivity. Qed.

Lemma get_quantum_data_failure_generic (req : request) (e : env) (x : exn) :
  get_quantum_data_try req e = Raise x ->
  get_quantum_data req e
  = jsonify_status [("error", PStr "Database error occurred")] 500
  \/ get_quantum_data req e
     = jsonify_status [("error", PStr "An unexpected error occurred")] 500.
Proof.
  intros H. unfold get_quantum_data. rewrite H.
  destruct (is_sqlite3_Error x); [left | right]; reflexivity.
Qed.

(** ** [ORDER BY]: the result is a sorted rearrangement *)

Section OrderByFacts.
Context {A : Type} (before : A -> A -> bool).

Lemma insert_sorted_perm (x : A) (l : list A) :
  Permutation (insert_sorted before x l) (x :: l).
Proof.
  induction l as [|y l IH]; simpl; [reflexivity|].
  destruct (before x y); [reflexivity|].
  rewrite IH. apply perm_swap.
Qed.

Lemma order_by_perm (l : list A) : Permutation (order_by before l) l.
Proof.
  induction l as [|x l IH]; simpl; [reflexivity|].
  rewrite insert_sorted_perm. now apply perm_skip.
Qed.

Lemma order_by_length (l : list A) : length (order_by before l) = length l.
Proof. apply Permutation_length, order_by_perm. Qed.

Hypothesis before_total : forall x y, before x y = true \/ before y x = true.
Hypothesis before_trans :
  forall x y z, before x y = true -> before y z = true -> before x z = true.

Lemma insert_sorted_sorted (x : A) (l : list A) :
  StronglySorted (fun a b => before a b = true) l ->
  StronglySorted (fun a b => before a b = true) (insert_sorted before x l).
Proof.
  induction 1 as [|y l Hl IH Hy]; simpl.
  - constructor; constructor.
  - destruct (before x y) eqn:Hxy.
    + constructor; [now constructor|].
      constructor; [exact Hxy|].
      rewrite List.Forall_forall in Hy |- *.
      intros z Hz. apply (before_trans x y z); [exact Hxy | now apply Hy].
    + constructor; [exact IH|].
      rewrite List.Forall_forall in Hy |- *.
      intros z Hz.
      apply (Permutation_in _ (insert_sorted_perm x l)) in Hz.
      destruct Hz as [<- | Hz]; [|now apply Hy].
      destruct (before_total x y); congruence.
Qed.

Lemma order_by_sorted (l : list A) :
  StronglySorted (fun a b => before a b = true) (order_by before l).
Proof.
  induction l as [|x l IH]; simpl; [constructor|].
  now apply insert_sorted_sorted.
Qed.
End OrderByFacts.

(** The byte-wise order of SQLite's TEXT values is a total preorder. *)
Lemma string_leb_trans (a b c : string) :
  String.leb a b = true -> String.leb b c = true -> String.leb a c = true.
Proof.
  unfold String.leb. revert b c.
  induction a as [|x a IH]; intros [|y b] [|z c]; simpl;
    try reflexivity; try discriminate.
  unfold Ascii.compare.
  destruct (N.compare_spec (N_of_ascii x) (N_of_ascii y)) as [Hxy|Hxy|Hxy];
    destruct (N.compare_spec (N_of_ascii y) (N_of_ascii z)) as [Hyz|Hyz|Hyz];
    destruct (N.compare_spec (N_of_ascii x) (N_of_ascii z)) as [Hxz|Hxz|Hxz];
    try reflexivity; try discriminate; try lia.
  apply IH.
Qed.

Lemma order_by_id_sorted (rows : list SimulationRecord) :
  StronglySorted (fun r s => String.leb (simulation_id r) (simulation_id s) = true)
    (order_by id_before rows).
Proof.
  apply (order_by_sorted id_before).
  - intros r s. apply String.leb_total.
  - intros r s t. apply string_leb_trans.
Qed.

(** ** GET /api/quantum-data *)

Lemma get_quantum_data_rows (req : request) (e : env) (t : table) :
  db e = Simulations t ->
  let page := args_get req "page" 1 in
  let per_page := Z.min (args_get req "per_page" 50) 100 in
  let offset := (page - 1) * per_page in
  get_quantum_data_try req e =
    if fits_int64 per_page && fits_int64 offset then
      if per_page =? 0
      then Raise (Exn ZeroDivisionError "integer division or modulo by zero")
      else Ok {| status := 200;
                 body := page_body
                           (select_page per_page offset (rows t))
                           page per_page (Z.of_nat (length (rows t)))
                           ((Z.of_nat (length (rows t)) + per_page - 1)
                            / per_page) |}
    else Raise (Exn OverflowError
                  "Python int too large to convert to SQLite INTEGER").
Proof.
  intros Hdb. cbn zeta. unfold get_quantum_data_try. rewrite Hdb.
  cbn [get_db_connection mbind result_bind]. unfold sqlite_bind.
  destruct (fits_int64 (Z.min (args_get req "per_page" 50) 100));
    cbn [andb mbind result_bind raise]; [|reflexivity].
  destruct (fits_int64 _); cbn [mbind result_bind raise]; [|reflexivity].
  unfold py_floordiv.
  destruct (Z.min (args_get req "per_page" 50) 100 =? 0); reflexivity.
Qed.

Lemma get_quantum_data_failing_store (req : request) (e : env) (text : string) :
  db e = Unavailable text \/ db e = NoSuchTable text ->
  get_quantum_data req e
  = jsonify_status [("error", PStr "Database error occurred")] 500.
Proof.
  intros [H | H]; unfold get_quantum_data, get_quantum_data_try;
    rewrite H; reflexivity.
Qed.

Lemma ceiling_div (total m : Z) :
  1 <= m ->
  ((total + m - 1) / m - 1) * m < total <= (total + m - 1) / m * m.
Proof.
  intros Hm.
  pose proof (Z.div_mod (total + m - 1) m ltac:(lia)) as Hdiv.
  pose proof (Z.mod_pos_bound (total + m - 1) m ltac:(lia)) as Hmod.
  nia.
Qed.

(** C6, as the code has it. For a table and a request with [page = p >= 1]
    and [per_page = n >= 1], the page size is [m = min n 100]. While the
    offset [(p-1)*m] fits a 64-bit integer, the answer is 200 and carries
    the [m] rows (fewer at the end of the table) that follow the first
    [(p-1)*m] rows of the table sorted by id, the number of rows of the
    table as [total], and as [pages] the least number of pages of size [m]
    that hold [total] rows; a page past the end has an empty [data]. Once
    the offset exceeds the largest 64-bit integer, the answer is 500 "An
    unexpected error occurred". *)
Theorem get_quantum_data_page (req : request) (e : env) (t : table) (p n : Z) :
  db e = Simulations t ->
  args_int req "page" = Some p ->
  args_int req "per_page" = Some n ->
  1 <= p -> 1 <= n ->
  let m := Z.min n 100 in
  let total := Z.of_nat (length (rows t)) in
  let ordered := order_by id_before (rows t) in
  let slice := firstn (Z.to_nat m) (skipn (Z.to_nat ((p - 1) * m)) ordered) in
  ((p - 1) * m <= INT64_MAX ->
   exists pages,
     get_quantum_data req e
     = {| status := 200; body := page_body slice p m total pages |}
     /\ m <= 100
     /\ Permutation ordered (rows t)
     /\ StronglySorted
          (fun r s => String.leb (simulation_id r) (simulation_id s) = true)
          ordered
     /\ (length slice <= Z.to_nat m)%nat
     /\ (pages - 1) * m < total <= pages * m
     /\ (total <= (p - 1) * m -> slice = []))
  /\ (INT64_MAX < (p - 1) * m ->
      get_quantum_data req e
      = jsonify_status [("error", PStr "An unexpected error occurred")] 500).
Proof.
  intros Hdb Hp Hn Hp1 Hn1. cbn zeta.
  assert (Hm : 1 <= Z.min n 100 <= 100) by lia.
  assert (Hmfit : fits_int64 (Z.min n 100) = true).
  { apply fits_int64_iff. unfold INT64_MIN, INT64_MAX. lia. }
  assert (Htry := get_quantum_data_rows req e t Hdb). cbn zeta in Htry.
  unfold args_get in Htry. rewrite Hp, Hn, Hmfit in Htry. cbn [andb] in Htry.
  split.
  - intros Hfit.
    exists ((Z.of_nat (length (rows t)) + Z.min n 100 - 1) / Z.min n 100).
    conjs.
    + unfold get_quantum_data. rewrite Htry.
      assert (Hofit : fits_int64 ((p - 1) * Z.min n 100) = true).
      { apply fits_int64_iff. unfold INT64_MIN. nia. }
      rewrite Hofit.
      destruct (Z.eqb_spec (Z.min n 100) 0); [lia|].
      unfold select_page, sql_limit, sql_offset.
      destruct (Z.ltb_spec (Z.min n 100) 0); [lia|].
      now replace (Z.max 0 ((p - 1) * Z.min n 100))
        with ((p - 1) * Z.min n 100) by nia.
    + lia.
    + apply order_by_perm.
    + apply order_by_id_sorted.
    + apply firstn_le_length.
    + apply ceiling_div; lia.
    + apply ceiling_div; lia.
    + intros Hpast. rewrite skipn_all2; [now rewrite firstn_nil|].
      rewrite order_by_length. nia.
  - intros Hover. unfold get_quantum_data. rewrite Htry.
    assert (Hofit : fits_int64 ((p - 1) * Z.min n 100) = false).
    { destruct (fits_int64 ((p - 1) * Z.min n 100)) eqn:E; [|reflexivity].
      apply fits_int64_iff in E. lia. }
    now rewrite Hofit.
Qed.

Lemma get_quantum_data_page_witness :
  get_quantum_data (page_request (Some 3) (Some 50))
    (store_env (Simulations store_120))
  = {| status := 200;
       body := page_body (map numbered_record (seq 101 20)) 3 50 120 3 |}.
Proof.
  destruct (get_quantum_data_page (page_request (Some 3) (Some 50))
              (store_env (Simulations store_120)) store_120 3 50
              eq_refl eq_refl eq_refl ltac:(lia) ltac:(lia))
    as [Hpage _].
  destruct Hpage as (pages & Heq & _ & _ & _ & _ & Hpages & _).
  { vm_compute. discriminate. }
  rewrite Heq.
  assert (Hlen : Z.of_nat (length (rows store_120)) = 120) by reflexivity.
  rewrite Hlen in Hpages. change (Z.min 50 100) with 50 in Hpages.
  assert (pages = 3) as -> by lia.
  vm_compute. reflexivity.
Defined.

(** A page whose offset does not fit 64 bits is answered 500, not 200 with
    an empty list: page 10^19 of pages of 50. *)
Lemma get_quantum_data_page_overflow :
  get_quantum_data (page_request (Some (10 ^ 19)) (Some 50))
    (store_env (Simulations store_120))
  = jsonify_status [("error", PStr "An unexpected error occurred")] 500
  /\ status (get_quantum_data (page_request (Some (10 ^ 19)) (Some 50))
               (store_env (Simulations store_120))) <> 200.
Proof. split; [vm_compute; reflexivity | vm_compute; discriminate]. Qed.

(** The store of 120 records: page 99 is empty and still answered 200. *)
Example get_quantum_data_page_99 :
  get_quantum_data (page_request (Some 99) (Some 50))
    (store_env (Simulations store_120))
  = {| status := 200; body := page_body [] 99 50 120 3 |}.
Proof. vm_compute. reflexivity. Qed.

(** A requested page size above 100 is served as 100. *)
Example get_quantum_data_capped :
  get_quantum_data (page_request (Some 2) (Some 500))
    (store_env (Simulations store_120))
  = {| status := 200;
       body := page_body (map numbered_record (seq 101 20)) 2 100 120 2 |}.
Proof. vm_compute. reflexivity. Qed.

(** C10. GET /api/quantum-data has no lower bound on its parameters. With
    [per_page=0] the answer is always 500, and on a table it is the
    division by zero in the page count, caught by the catch-all clause,
    that produces it; whatever the parameters, the answer is 200 or 500,
    never a client error; a negative [per_page], and a [page] below 1 with
    a non-zero page size, are answered 200 on a table as long as the page
    size and the offset fit 64-bit integers. *)
Theorem get_quantum_data_no_lower_bound (req : request) (e : env) :
  let page := args_get req "page" 1 in
  let per_page := Z.min (args_get req "per_page" 50) 100 in
  let offset := (page - 1) * per_page in
  (args_int req "per_page" = Some 0 ->
   status (get_quantum_data req e) = 500
   /\ forall t, db e = Simulations t ->
      (exists text,
          get_quantum_data_try req e = Raise (Exn ZeroDivisionError text))
      /\ get_quantum_data req e
         = jsonify_status [("error", PStr "An unexpected error occurred")] 500)
  /\ (status (get_quantum_data req e) = 200
      \/ status (get_quantum_data req e) = 500)
  /\ (forall t n, db e = Simulations t ->
      args_int req "per_page" = Some n -> n < 0 ->
      INT64_MIN <= n -> INT64_MIN <= offset <= INT64_MAX ->
      status (get_quantum_data req e) = 200)
  /\ (forall t p, db e = Simulations t ->
      args_int req "page" = Some p -> p < 1 ->
      per_page <> 0 ->
      INT64_MIN <= per_page -> INT64_MIN <= offset <= INT64_MAX ->
      status (get_quantum_data req e) = 200).
Proof.
  cbn zeta.
  assert (Hok : forall t, db e = Simulations t ->
            Z.min (args_get req "per_page" 50) 100 <> 0 ->
            INT64_MIN <= Z.min (args_get req "per_page" 50) 100 ->
            INT64_MIN
            <= (args_get req "page" 1 - 1) * Z.min (args_get req "per_page" 50) 100
            <= INT64_MAX ->
            status (get_quantum_data req e) = 200).
  { intros t H Hnz Hlo Hoff. unfold get_quantum_data.
    rewrite (get_quantum_data_rows req e t H). cbn zeta.
    assert (fits_int64 (Z.min (args_get req "per_page" 50) 100) = true) as ->.
    { apply fits_int64_iff. unfold INT64_MAX in *. lia. }
    apply fits_int64_iff in Hoff. rewrite Hoff. cbn [andb].
    destruct (Z.eqb_spec (Z.min (args_get req "per_page" 50) 100) 0);
      [contradiction | reflexivity]. }
  conjs.
  - intros Hzero.
    assert (Hpp : Z.min (args_get req "per_page" 50) 100 = 0)
      by (unfold args_get; rewrite Hzero; reflexivity).
    assert (Hrows : forall t, db e = Simulations t ->
              get_quantum_data_try req e
              = Raise (Exn ZeroDivisionError "integer division or modulo by zero")).
    { intros t E. rewrite (get_quantum_data_rows req e t E). cbn zeta.
      rewrite Hpp. now rewrite Z.mul_0_r. }
    split.
    + destruct (db e) as [text | text | t] eqn:E.
      * rewrite (get_quantum_data_failing_store req e text); [reflexivity | now left].
      * rewrite (get_quantum_data_failing_store req e text); [reflexivity | now right].
      * unfold get_quantum_data. now rewrite (Hrows t eq_refl).
    + intros t E. split; [eexists; exact (Hrows t E)|].
      unfold get_quantum_data. now rewrite (Hrows t E).
  - destruct (db e) as [text | text | t] eqn:E.
    + right. rewrite (get_quantum_data_failing_store req e text);
        [reflexivity | now left].
    + right. rewrite (get_quantum_data_failing_store req e text);
        [reflexivity | now right].
    + unfold get_quantum_data.
      rewrite (get_quantum_data_rows req e t E). cbn zeta.
      destruct (_ && _); [|right; reflexivity].
      destruct (_ =? 0); [right | left]; reflexivity.
  - intros t n E Hn Hneg Hlo Hoff. apply (Hok t E); try exact Hoff.
    + unfold args_get at 1. rewrite Hn. lia.
    + unfold args_get at 1. rewrite Hn. lia.
  - intros t p E Hp Hlow Hpp Hlo Hoff. now apply (Hok t E).
Qed.

Lemma get_quantum_data_no_lower_bound_witness :
  get_quantum_data (page_request (Some 1) (Some 0))
    (store_env (Simulations store_120))
  = jsonify_status [("error", PStr "An unexpected error occurred")] 500
  /\ status (get_quantum_data (page_request (Some 1) (Some (-5)))
               (store_env (Simulations store_120))) = 200
  /\ status (get_quantum_data (page_request (Some (-2)) None)
               (store_env (Simulations store_120))) = 200.
Proof.
  conjs.
  - destruct (get_quantum_data_no_lower_bound
                (page_request (Some 1) (Some 0))
                (store_env (Simulations store_120))) as (Hzero & _).
    destruct (Hzero eq_refl) as [_ Hrows].
    apply (Hrows store_120 eq_refl).
  - destruct (get_quantum_data_no_lower_bound
                (page_request (Some 1) (Some (-5)))
                (store_env (Simulations store_120))) as (_ & _ & Hneg & _).
    apply (Hneg store_120 (-5));
      [reflexivity | reflexivity | lia | vm_compute; discriminate
      | split; vm_compute; discriminate].
  - destruct (get_quantum_data_no_lower_bound
                (page_request (Some (-2)) None)
                (store_env (Simulations store_120))) as (_ & _ & _ & Hlow).
    apply (Hlow store_120 (-2));
      [reflexivity | reflexivity | lia | discriminate
      | vm_compute; discriminate | split; vm_compute; discriminate].
Defined.

(** What the code does at parameters below the documented range. *)
Example get_quantum_data_negative_per_page :
  get_quantum_data (page_request (Some 1) (Some (-1)))
    (store_env
       (Simulations
          (sample_table (map numbered_record [2; 1; 3]%nat)
             ltac:(vm_compute; discriminate))))
  = {| status := 200;
       body := page_body (map numbered_record [1; 2; 3]%nat) 1 (-1) 3 (-1) |}.
Proof. vm_compute. reflexivity. Qed.

(** ** POST /api/ask: every outcome and its status *)

Lemma ask_try_validated (req : request) (e : env)
    (fields : list (string * pyval)) (text data_summary : string) :
  json req = Ok (PDict fields) -> fields <> [] ->
  validate_question (question_of fields) = Ok (true, text) ->
  get_simulation_summary (db e) 5 = Ok data_summary ->
  ask_try req e
  = ([ask_call req e data_summary text],
     ask_upstream req e (ask_call req e data_summary text)).
Proof.
  intros Hjson Hne Hvalid Hsummary. unfold ask_try. rewrite Hjson.
  destruct fields as [|kv fields]; [contradiction|].
  cbn [truthy negb py_get]. fold (question_of (kv :: fields)).
  now rewrite Hvalid, Hsummary.
Qed.

Lemma ask_try_rejected (req : request) (e : env)
    (fields : list (string * pyval)) (reason : string) :
  json req = Ok (PDict fields) -> fields <> [] ->
  validate_question (question_of fields) = Ok (false, reason) ->
  ask_try req e = ([], Ok (jsonify_status [("error", PStr reason)] 400)).
Proof.
  intros Hjson Hne Hvalid. unfold ask_try. rewrite Hjson.
  destruct fields as [|kv fields]; [contradiction|].
  cbn [truthy negb py_get]. fold (question_of (kv :: fields)).
  now rewrite Hvalid.
Qed.

(** With the default limit, [get_simulation_summary] raises nothing but
    the [TypeError] of a NULL average. *)
Lemma get_simulation_summary_5_raise (d : database) (x : exn) :
  get_simulation_summary d 5 = Raise x -> exn_class_of x = TypeError.
Proof.
  destruct d as [text | text | t]; try discriminate.
  rewrite get_simulation_summary_rows by (unfold INT64_MIN, INT64_MAX; lia).
  destruct (select_summary 5 t) as [|g groups]; [discriminate|].
  destruct (summary_lines_of (g :: groups)) as [lines|y] eqn:Hlines;
    cbn [mbind result_bind]; [discriminate|].
  intros [= <-]. apply (summary_lines_of_raise _ _ Hlines).
Qed.

Ltac step :=
  cbn [mbind result_bind py_contains py_getitem py_getitem_0 truthy negb
       answer_of].

(** What the view makes of a body that arrived with a good status. *)
Lemma ask_upstream_body (req : request) (e : env) (call : outbound)
    (r : upstream_response) (data : pyval) :
  requests_post e call = Ok r ->
  raise_for_status r = Ok tt ->
  response_json r = Ok data ->
  match answer_of data with
  | Some answer => ask_upstream req e call = Ok (jsonify [("answer", answer)])
  | None =>
      ask_upstream req e call = Ok invalid_upstream_response
      \/ exists x, ask_upstream req e call = Raise x
                   /\ ask_except x = unexpected_error
  end.
Proof.
  intros Hpost Hstatus Hjson. unfold ask_upstream.
  rewrite Hpost. cbn [mbind result_bind]. rewrite Hstatus.
  cbn [mbind result_bind]. rewrite Hjson.
  destruct data as [| b | z | q | s | l | fields]; step;
    try (right; eexists; split; reflexivity).
  - destruct (contains "choices" s); step;
      [right; eexists; split; reflexivity | left; reflexivity].
  - destruct (existsb _ l); step;
      [right; eexists; split; reflexivity | left; reflexivity].
  - destruct (dict_lookup "choices" fields) as [choices|];
      [|left; reflexivity].
    rewrite bool_decide_eq_true_2 by eauto. step.
    destruct choices as [| b | z | q | s | [|first l] | [|kv d]]; step;
      try (left; reflexivity);
      try (right; eexists; split; reflexivity).
    + destruct b; step;
        [right; eexists; split; reflexivity | left; reflexivity].
    + destruct (z =? 0); step;
        [left; reflexivity | right; eexists; split; reflexivity].
    + destruct (Qeq_bool q 0); step;
        [left; reflexivity | right; eexists; split; reflexivity].
    + destruct s as [|c s];
        [left; reflexivity | right; eexists; split; reflexivity].
    + destruct first as [| b | z | q | s | l' | first]; step;
        try (right; eexists; split; reflexivity).
      destruct (dict_lookup "message" first) as [message|]; step;
        [|right; eexists; split; reflexivity].
      destruct message as [| b | z | q | s | l' | message]; step;
        try (right; eexists; split; reflexivity).
      destruct (dict_lookup "content" message) as [answer|];
        [reflexivity | right; eexists; split; reflexivity].
Qed.

Lemma ask_upstream_cases (req : request) (e : env) (call : outbound) :
  (exists answer, ask_upstream req e call = Ok (jsonify [("answer", answer)]))
  \/ ask_upstream req e call = Ok invalid_upstream_response
  \/ exists x, ask_upstream req e call = Raise x.
Proof.
  destruct (requests_post e call) as [resp|x] eqn:Hpost;
    [|right; right; exists x; unfold ask_upstream; now rewrite Hpost].
  destruct (raise_for_status resp) as [[]|x] eqn:Hstatus;
    [|right; right; exists x; unfold ask_upstream; rewrite Hpost;
      cbn [mbind result_bind]; now rewrite Hstatus].
  destruct (response_json resp) as [data|x] eqn:Hjson;
    [|right; right; exists x; unfold ask_upstream; rewrite Hpost;
      cbn [mbind result_bind]; rewrite Hstatus; cbn [mbind result_bind];
      now rewrite Hjson].
  pose proof (ask_upstream_body req e call resp data Hpost Hstatus Hjson) as H.
  destruct (answer_of data) as [answer|].
  - left. now exists answer.
  - destruct H as [H | (x & H & _)]; [right; left | right; right; exists x];
      exact H.
Qed.

Lemma ask_except_status (x : exn) :
  In (status (ask_except x)) [500; 503; 504].
Proof.
  unfold ask_except.
  destruct (is_Timeout x); [simpl; tauto|].
  destruct (is_RequestException x); [simpl; tauto|].
  destruct (is_JSONDecodeError x); simpl; tauto.
Qed.

Lemma ask_view_status (req : request) (e : env) :
  In (status (snd (ask_quantum_ai_view req e))) [200; 400; 500; 503; 504].
Proof.
  assert (Hexc : forall x, In (status (ask_except x)) [200; 400; 500; 503; 504]).
  { intros x. pose proof (ask_except_status x) as H. simpl in *. tauto. }
  unfold ask_quantum_ai_view, ask_try.
  destruct (json req) as [request_json|x]; [|apply Hexc].
  destruct (negb (truthy request_json)); [simpl; tauto|].
  destruct (py_get request_json "question" (PStr "")) as [q|x]; [|apply Hexc].
  destruct (validate_question q) as [[[|] text]|x];
    [| simpl; tauto | apply Hexc].
  destruct (get_simulation_summary (db e) 5) as [summary|x]; [|apply Hexc].
  cbn [snd].
  destruct (ask_upstream_cases req e (ask_call req e summary text))
    as [[answer H] | [H | [x H]]]; rewrite H;
    [simpl; tauto | simpl; tauto | apply Hexc].
Qed.

(** C2, at the input where the code departs from it. A request the limiter
    lets through with a body that is not JSON, or not declared as JSON:
    reading [request.json] raises inside the [try], the test that would
    answer 400 "Invalid JSON data" is never made, and the catch-all clause
    answers 500 "An unexpected error occurred". *)
Theorem ask_body_not_json_is_answered_500
    (req : request) (e : env) (stamps : gmap string (list Q)) (text : string) :
  admits 5 60 req e stamps = true ->
  json req = Raise (Exn BadRequest text)
  \/ json req = Raise (Exn UnsupportedMediaType text) ->
  snd (ask_quantum_ai req e stamps)
  = ([], jsonify_status [("error", PStr "An unexpected error occurred")] 500)
  /\ status (snd (snd (ask_quantum_ai req e stamps))) <> 400.
Proof.
  intros Hadm Hjson.
  assert (H : snd (ask_quantum_ai req e stamps) = ([], unexpected_error)).
  { unfold ask_quantum_ai.
    rewrite (rate_limit_admitted _ _ _ _ _ _ Hadm). cbn [snd].
    unfold ask_quantum_ai_view, ask_try.
    destruct Hjson as [-> | ->]; reflexivity. }
  rewrite H. split; [reflexivity | discriminate].
Qed.

Lemma ask_body_not_json_is_answered_500_witness :
  snd (ask_quantum_ai malformed_request
         (sample_env 0 (Simulations empty_table) unreachable_upstream) ∅)
  = ([], jsonify_status [("error", PStr "An unexpected error occurred")] 500).
Proof.
  apply (ask_body_not_json_is_answered_500 malformed_request
           (sample_env 0 (Simulations empty_table) unreachable_upstream) ∅
           "Failed to decode JSON object");
    [reflexivity | left; reflexivity].
Defined.

(** X19. The outcomes of POST /api/ask and their responses, as the code
    has them. A request the limiter turns away is answered 429; a falsy JSON
    body and a question that [validate_question] rejects are answered 400;
    a body for which [request.json] raises, and a summary that raises, are
    answered 500; in these cases no call is made to the upstream service.
    A validated question makes exactly one call; a timeout of that call is
    answered 504; any other failure of the transport, an HTTP error status
    and a reply that is not JSON are answered 503; a reply without an
    answer at [choices[0].message.content] is answered 500, and a reply
    with that answer is answered 200 with the answer unchanged. No other
    status occurs. *)
Theorem ask_quantum_ai_outcomes (req : request) (e : env)
    (stamps : gmap string (list Q)) :
  let outcome := snd (ask_quantum_ai req e stamps) in
  (admits 5 60 req e stamps = false ->
   outcome = ([], too_many_requests))
  /\ (forall request_json,
      admits 5 60 req e stamps = true ->
      json req = Ok request_json -> truthy request_json = false ->
      outcome = ([], jsonify_status [("error", PStr "Invalid JSON data")] 400))
  /\ (forall text,
      admits 5 60 req e stamps = true ->
      json req = Raise (Exn BadRequest text)
      \/ json req = Raise (Exn UnsupportedMediaType text) ->
      outcome = ([], unexpected_error))
  /\ (forall fields reason,
      admits 5 60 req e stamps = true ->
      json req = Ok (PDict fields) -> fields <> [] ->
      validate_question (question_of fields) = Ok (false, reason) ->
      outcome = ([], jsonify_status [("error", PStr reason)] 400))
  /\ (forall fields text x,
      admits 5 60 req e stamps = true ->
      json req = Ok (PDict fields) -> fields <> [] ->
      validate_question (question_of fields) = Ok (true, text) ->
      get_simulation_summary (db e) 5 = Raise x ->
      outcome = ([], unexpected_error))
  /\ (forall fields text data_summary,
      admits 5 60 req e stamps = true ->
      json req = Ok (PDict fields) -> fields <> [] ->
      validate_question (question_of fields) = Ok (true, text) ->
      get_simulation_summary (db e) 5 = Ok data_summary ->
      let call := ask_call req e data_summary text in
      fst outcome = [call]
      /\ (forall x, requests_post e call = Raise x -> is_Timeout x = true ->
          snd outcome
          = jsonify_status
              [("error",
                PStr "AI service is currently slow. Please try again.")] 504)
      /\ (forall x, requests_post e call = Raise x -> is_Timeout x = false ->
          is_RequestException x = true ->
          snd outcome
          = jsonify_status
              [("error", PStr "AI service temporarily unavailable")] 503)
      /\ (forall r detail, requests_post e call = Ok r ->
          raise_for_status r = Raise (Exn HTTPError detail) ->
          snd outcome
          = jsonify_status
              [("error", PStr "AI service temporarily unavailable")] 503)
      /\ (forall r, requests_post e call = Ok r ->
          raise_for_status r = Ok tt ->
          json_body r = None ->
          snd outcome
          = jsonify_status
              [("error", PStr "AI service temporarily unavailable")] 503)
      /\ (forall r data, requests_post e call = Ok r ->
          raise_for_status r = Ok tt ->
          json_body r = Some data ->
          answer_of data = None ->
          status (snd outcome) = 500)
      /\ (forall r data answer, requests_post e call = Ok r ->
          raise_for_status r = Ok tt ->
          json_body r = Some data ->
          answer_of data = Some answer ->
          snd outcome = {| status := 200;
                           body := PDict [("answer", answer)] |}))
  /\ In (status (snd outcome)) [200; 400; 429; 500; 503; 504].
Proof.
  cbn zeta. unfold ask_quantum_ai. rewrite rate_limit_unfold. cbn zeta.
  destruct (admits 5 60 req e stamps) eqn:Hadm; cbn [snd fst];
    [|conjs; try (intros; discriminate); try (intros; reflexivity);
      simpl; tauto].
  split; [discriminate|]. conjs.
  - intros request_json _ Hjson Hfalsy. unfold ask_quantum_ai_view, ask_try.
    now rewrite Hjson, Hfalsy.
  - intros text _ [Hjson | Hjson]; unfold ask_quantum_ai_view, ask_try;
      now rewrite Hjson.
  - intros fields reason _ Hjson Hne Hvalid. unfold ask_quantum_ai_view.
    now rewrite (ask_try_rejected req e fields reason Hjson Hne Hvalid).
  - intros fields text x _ Hjson Hne Hvalid Hsummary.
    unfold ask_quantum_ai_view, ask_try. rewrite Hjson.
    destruct fields as [|kv fields]; [contradiction|].
    cbn [truthy negb py_get]. fold (question_of (kv :: fields)).
    rewrite Hvalid, Hsummary.
    pose proof (get_simulation_summary_5_raise _ _ Hsummary) as Hc.
    destruct x as [c detail]. cbn in Hc. subst c. reflexivity.
  - intros fields text data_summary _ Hjson Hne Hvalid Hsummary.
    unfold ask_quantum_ai_view.
    rewrite (ask_try_validated req e fields text data_summary
               Hjson Hne Hvalid Hsummary).
    cbn [fst snd]. set (call := ask_call req e data_summary text).
    conjs.
    + reflexivity.
    + intros x Hpost Htimeout. unfold ask_upstream. rewrite Hpost.
      cbn [mbind result_bind]. unfold ask_except. now rewrite Htimeout.
    + intros x Hpost Htimeout Hreq. unfold ask_upstream. rewrite Hpost.
      cbn [mbind result_bind]. unfold ask_except.
      now rewrite Htimeout, Hreq.
    + intros r detail Hpost Hstatus. unfold ask_upstream. rewrite Hpost.
      cbn [mbind result_bind]. now rewrite Hstatus.
    + intros r Hpost Hstatus Hbody. unfold ask_upstream, response_json.
      rewrite Hpost. cbn [mbind result_bind]. rewrite Hstatus.
      cbn [mbind result_bind]. now rewrite Hbody.
    + intros r data Hpost Hstatus Hbody Hnone.
      assert (Hjson' : response_json r = Ok data)
        by (unfold response_json; now rewrite Hbody).
      pose proof (ask_upstream_body req e call r data Hpost Hstatus Hjson')
        as H.
      rewrite Hnone in H. destruct H as [-> | (x & -> & ->)]; reflexivity.
    + intros r data answer Hpost Hstatus Hbody Hsome.
      assert (Hjson' : response_json r = Ok data)
        by (unfold response_json; now rewrite Hbody).
      pose proof (ask_upstream_body req e call r data Hpost Hstatus Hjson')
        as H.
      rewrite Hsome in H. now rewrite H.
  - pose proof (ask_view_status req e) as H. simpl in *. tauto.
Qed.

Lemma ask_quantum_ai_outcomes_witness :
  snd (snd (ask_quantum_ai superposition_request
              (sample_env 0 (Simulations empty_table)
                 (answering_upstream "A state that is a sum of basis states."))
              ∅))
  = {| status := 200;
       body := PDict [("answer",
                       PStr "A state that is a sum of basis states.")] |}.
Proof.
  pose proof (ask_quantum_ai_outcomes superposition_request
                (sample_env 0 (Simulations empty_table)
                   (answering_upstream "A state that is a sum of basis states."))
                ∅) as H.
  cbn zeta in H. destruct H as (_ & _ & _ & _ & _ & Hvalid & _).
  destruct (Hvalid [("question", PStr "What is superposition?")]
              "What is superposition?"
              "No quantum simulation data available yet.")
    as (_ & _ & _ & _ & _ & _ & Hanswer).
  - reflexivity.
  - reflexivity.
  - discriminate.
  - reflexivity.
  - reflexivity.
  - eapply Hanswer; reflexivity.
Defined.

(** An HTTP error status, a timeout, a reply without choices and a reply
    that is not JSON, end to end. *)
Example ask_quantum_ai_http_error :
  snd (ask_quantum_ai superposition_request
         (sample_env 0 (Simulations empty_table)
            (fun _ => Ok {| raise_for_status :=
                              raise HTTPError "500 Server Error";
                            json_body := Some (PDict []) |}))
         ∅)
  = ([ask_call superposition_request
        (sample_env 0 (Simulations empty_table) unreachable_upstream)
        "No quantum simulation data available yet."
        "What is superposition?"],
     jsonify_status
       [("error", PStr "AI service temporarily unavailable")] 503).
Proof. reflexivity. Qed.

Example ask_quantum_ai_timeout :
  snd (snd (ask_quantum_ai superposition_request
              (sample_env 0 (Simulations empty_table)
                 (fun _ => raise Timeout "read timed out"))
              ∅))
  = jsonify_status
      [("error", PStr "AI service is currently slow. Please try again.")] 504.
Proof. reflexivity. Qed.

Example ask_quantum_ai_no_choices :
  snd (snd (ask_quantum_ai superposition_request
              (sample_env 0 (Simulations empty_table)
                 (fun _ => Ok {| raise_for_status := Ok tt;
                                 json_body :=
                                   Some (PDict [("error", PStr "overloaded")]) |}))
              ∅))
  = jsonify_status [("error", PStr "Invalid response from AI service")] 500.
Proof. reflexivity. Qed.

Example ask_quantum_ai_reply_not_json :
  snd (snd (ask_quantum_ai superposition_request
              (sample_env 0 (Simulations empty_table)
                 (fun _ => Ok {| raise_for_status := Ok tt;
                                 json_body := None |}))
              ∅))
  = jsonify_status [("error", PStr "AI service temporarily unavailable")] 503.
Proof. reflexivity. Qed.

(** ** The aggregate query *)


Lemma group_keys_In (rows : list SimulationRecord) (a : string) :
  In a (group_keys rows) <-> exists r, In r rows /\ algorithm r = a.
Proof.
  induction rows as [|r rows IH]; simpl.
  - split; [contradiction | intros (r & [] & _)].
  - rewrite filter_In, IH, negb_true_iff, String.eqb_neq. split.
    + intros [<- | [(s & Hs & <-) _]]; eauto.
    + intros (s & [<- | Hs] & <-); [now left|].
      destruct (String.eqb_spec (algorithm r) (algorithm s)) as [Heq|Hne];
        [now left | right]. split; [eauto | congruence].
Qed.

Lemma group_keys_NoDup (rows : list SimulationRecord) :
  List.NoDup (group_keys rows).
Proof.
  induction rows as [|r rows IH]; simpl; constructor.
  - rewrite filter_In, negb_true_iff, String.eqb_neq. intros [_ H].
    now apply H.
  - now apply List.NoDup_filter.
Qed.




Lemma sql_le_finite (x y : Q) :
  sql_le (Some (Finite x)) (Some (Finite y)) = true <-> (x <= y)%Q.
Proof.
  unfold sql_le. cbn [sql_key]. rewrite Z.ltb_irrefl, Z.eqb_refl. cbn [orb andb].
  apply Qle_bool_iff.
Qed.






Lemma ranking_In (t : table) (g : summary_row) :
  In g (ranking t) ->
  g = aggregate t (row_algorithm g)
  /\ exists r, In r (rows t) /\ algorithm r = row_algorithm g.
Proof.
  unfold ranking. intros H.
  apply (Permutation_in _ (order_by_perm (accuracy_desc t) _)) in H.
  apply in_map_iff in H. destruct H as (a & <- & Ha). split; [reflexivity|].
  now apply group_keys_In.
Qed.


(** ** Fixed-point notation *)







(** The line of "A" (average accuracy 0.90625) comes before the line of
    "B" (average accuracy 0.78125); 97.5 and 50.5 go to the even
    neighbour. *)
Example get_simulation_summary_A_before_B :
  get_simulation_summary (Simulations runs_A_B) 5
  = Ok (join newline
          [ "Recent quantum simulation performance:";
            "- A: avg accuracy 0.91, avg runtime 98ms (2 runs)";
            "- B: avg accuracy 0.78, avg runtime 50ms (2 runs)" ]).
Proof. vm_compute. reflexivity. Qed.


(** ** The limiter of POST /api/ask over a sequence of requests *)

Lemma window_of_insert (stamps : gmap string (list Q)) (k k' : string)
    (l : list Q) :
  window_of (<[k := l]> stamps) k' = if decide (k = k') then l else window_of stamps k'.
Proof.
  unfold window_of. rewrite lookup_insert.
  destruct (decide (k = k')); reflexivity.
Qed.

Lemma window_of_empty (k : string) : window_of ∅ k = [].
Proof. reflexivity. Qed.

Lemma bounded_empty : bounded ∅.
Proof. intros k. rewrite window_of_empty. simpl. lia. Qed.

Lemma clean_length (width now : Q) (l : list Q) :
  (length (clean width now l) <= length l)%nat.
Proof. apply List.filter_length_le. Qed.

(** One request through the decorated view: the dict and the verdict. *)
Lemma ask_step (req : request) (e : env) (stamps : gmap string (list Q)) :
  let kept := clean 60 (time_time e) (window_of stamps (remote_addr req)) in
  fst (ask_quantum_ai req e stamps)
  = <[remote_addr req :=
        if admits 5 60 req e stamps then kept ++ [time_time e] else kept]>
      stamps
  /\ admitted (snd (snd (ask_quantum_ai req e stamps)))
     = admits 5 60 req e stamps.
Proof.
  cbn zeta. unfold ask_quantum_ai. rewrite rate_limit_unfold. cbn zeta.
  destruct (admits 5 60 req e stamps); cbn [fst snd]; split;
    try reflexivity.
  unfold admitted. pose proof (ask_view_status req e) as H.
  destruct (Z.eqb_spec (status (snd (ask_quantum_ai_view req e))) 429)
    as [Heq|Hne]; [|reflexivity].
  rewrite Heq in H. simpl in H.
  repeat destruct H as [H|H]; try discriminate H; contradiction.
Qed.

Lemma admits_length (req : request) (e : env) (stamps : gmap string (list Q)) :
  admits 5 60 req e stamps = true
  <-> (length (clean 60 (time_time e) (window_of stamps (remote_addr req)))
       < 5)%nat.
Proof. unfold admits. rewrite Z.ltb_lt. lia. Qed.

Lemma bounded_step (req : request) (e : env) (stamps : gmap string (list Q)) :
  bounded stamps -> bounded (fst (ask_quantum_ai req e stamps)).
Proof.
  intros Hb k. destruct (ask_step req e stamps) as [-> _].
  rewrite window_of_insert. destruct (decide (remote_addr req = k)) as [_|_];
    [|apply Hb].
  destruct (admits 5 60 req e stamps) eqn:Hadm.
  - apply admits_length in Hadm. rewrite length_app. simpl. lia.
  - etransitivity; [apply clean_length | apply Hb].
Qed.

Lemma serve_cons (stamps : gmap string (list Q)) (req : request) (e : env)
    (rest : list (request * env)) :
  serve stamps ((req, e) :: rest)
  = (fst (serve (fst (ask_quantum_ai req e stamps)) rest),
     snd (snd (ask_quantum_ai req e stamps))
     :: snd (serve (fst (ask_quantum_ai req e stamps)) rest)).
Proof.
  simpl. destruct (ask_quantum_ai req e stamps) as [stamps' [calls r]].
  simpl. destruct (serve stamps' rest). reflexivity.
Qed.

Lemma serve_app (stamps : gmap string (list Q))
    (first rest : list (request * env)) :
  serve stamps (first ++ rest)
  = (fst (serve (fst (serve stamps first)) rest),
     snd (serve stamps first) ++ snd (serve (fst (serve stamps first)) rest)).
Proof.
  revert stamps. induction first as [|[req e] first IH]; intros stamps.
  - simpl. now destruct (serve stamps rest).
  - rewrite <- app_comm_cons, !serve_cons, IH. reflexivity.
Qed.

Lemma bounded_serve (stamps : gmap string (list Q))
    (arrivals : list (request * env)) :
  bounded stamps -> bounded (fst (serve stamps arrivals)).
Proof.
  revert stamps. induction arrivals as [|[req e] rest IH]; intros stamps Hb;
    [exact Hb|].
  rewrite serve_cons. cbn [fst]. apply IH, bounded_step, Hb.
Qed.

Lemma since_length (t : Q) (l : list Q) : (since t l <= length l)%nat.
Proof. apply List.filter_length_le. Qed.

Lemma since_app (t : Q) (l l' : list Q) :
  since t (l ++ l') = (since t l + since t l')%nat.
Proof. unfold since. now rewrite List.filter_app, length_app. Qed.

(** Cleaning at a time before the window closes drops no timestamp that
    lies in the window. *)
Lemma since_clean (t now : Q) (l : list Q) :
  (now < t + 60)%Q -> since t (clean 60 now l) = since t l.
Proof.
  intros Hnow. unfold since, clean.
  induction l as [|ts l IH]; [reflexivity|]. simpl.
  destruct (Qltb (now - ts) 60) eqn:Hkeep; simpl.
  - destruct (Qle_bool t ts); simpl; now rewrite IH.
  - apply Qltb_ge in Hkeep.
    destruct (Qle_bool t ts) eqn:Hin; [|exact IH].
    apply Qle_bool_iff in Hin. lra.
Qed.

Lemma admissions_cons (client_ip : string) (t : Q) (req : request) (e : env)
    (r : response) (rest : list (request * env)) (responses : list response) :
  admissions client_ip t ((req, e) :: rest) (r :: responses)
  = ((if String.eqb (remote_addr req) client_ip
         && in_window t 60 (time_time e) && admitted r
      then 1 else 0)
     + admissions client_ip t rest responses)%nat.
Proof.
  unfold admissions. simpl.
  destruct (String.eqb (remote_addr req) client_ip
            && in_window t 60 (time_time e) && admitted r); reflexivity.
Qed.

(** After the window has closed nothing more is counted. *)
Lemma admissions_late (client_ip : string) (t : Q)
    (arrivals : list (request * env)) (responses : list response) :
  Forall (fun a => (t + 60 <= time_time (snd a))%Q) arrivals ->
  admissions client_ip t arrivals responses = 0%nat.
Proof.
  intros Hlate. revert responses.
  induction Hlate as [|[req e] rest Hhead Hrest IH]; intros [|r responses];
    try reflexivity.
  rewrite admissions_cons, IH. unfold in_window.
  replace (Qltb (time_time e) (t + 60)) with false
    by (symmetry; apply Qltb_ge; exact Hhead).
  now rewrite andb_false_r, andb_false_r.
Qed.

(** The timestamps on record that lie in a window, and the admissions
    still to come in it, never add up to more than five. *)
Lemma admissions_bound (client_ip : string) (t : Q)
    (arrivals : list (request * env)) (stamps : gmap string (list Q)) :
  chronological arrivals -> bounded stamps ->
  (since t (window_of stamps client_ip)
   + admissions client_ip t arrivals (snd (serve stamps arrivals)) <= 5)%nat.
Proof.
  intros Hsorted. revert stamps.
  induction Hsorted as [|[req e] rest Hrest IH Hhead]; intros stamps Hb.
  - simpl. unfold admissions. simpl.
    pose proof (since_length t (window_of stamps client_ip)).
    pose proof (Hb client_ip). lia.
  - destruct (Qlt_le_dec (time_time e) (t + 60)) as [Hopen|Hclosed].
    + rewrite serve_cons. cbn [snd]. rewrite admissions_cons.
      specialize (IH _ (bounded_step req e stamps Hb)).
      destruct (ask_step req e stamps) as [Hstamps Hadm].
      rewrite Hstamps in IH |- *. rewrite window_of_insert in IH.
      rewrite Hadm. clear Hstamps Hadm.
      destruct (decide (remote_addr req = client_ip)) as [Heq|Hne].
      * rewrite Heq in *. rewrite String.eqb_refl.
        destruct (admits 5 60 req e stamps).
        -- rewrite since_app, since_clean in IH by exact Hopen.
           unfold in_window. unfold since at 2 in IH. simpl in IH.
           replace (Qltb (time_time e) (t + 60)) with true
             by (symmetry; apply Qltb_lt; exact Hopen).
           destruct (Qle_bool t (time_time e)); simpl in *; lia.
        -- rewrite since_clean in IH by exact Hopen.
           rewrite andb_false_r. simpl. exact IH.
      * apply String.eqb_neq in Hne. rewrite Hne. simpl. exact IH.
    + rewrite (admissions_late client_ip t).
      * pose proof (since_length t (window_of stamps client_ip)).
        pose proof (Hb client_ip). lia.
      * constructor; [exact Hclosed|].
        rewrite List.Forall_forall in Hhead |- *. intros a Ha.
        apply (Qle_trans _ (time_time e)); [exact Hclosed|].
        now apply Hhead.
Qed.

Lemma filter_drops {A : Type} (f : A -> bool) (x : A) (l : list A) :
  In x l -> f x = false -> (length (List.filter f l) < length l)%nat.
Proof.
  induction l as [|y l IH]; simpl; [contradiction|].
  intros [-> | Hin] Hx.
  - rewrite Hx. pose proof (List.filter_length_le f l). lia.
  - specialize (IH Hin Hx). destruct (f y); simpl; lia.
Qed.

(** A timestamp stays on record while the requests of its client arrive
    less than 60 seconds after it. *)
Lemma stamp_survives (client_ip : string) (t1 : Q)
    (arrivals : list (request * env)) (stamps : gmap string (list Q)) :
  In t1 (window_of stamps client_ip) ->
  (forall req e, In (req, e) arrivals -> remote_addr req = client_ip ->
                 (time_time e < t1 + 60)%Q) ->
  In t1 (window_of (fst (serve stamps arrivals)) client_ip).
Proof.
  revert stamps. induction arrivals as [|[req e] rest IH];
    intros stamps Hin Hearly; [exact Hin|].
  rewrite serve_cons. cbn [fst]. apply IH.
  - destruct (ask_step req e stamps) as [-> _]. rewrite window_of_insert.
    destruct (decide (remote_addr req = client_ip)) as [Heq|Hne];
      [|exact Hin].
    assert (Hkept : In t1 (clean 60 (time_time e)
                             (window_of stamps (remote_addr req)))).
    { apply filter_In. rewrite Heq. split; [exact Hin|].
      apply Qltb_lt. specialize (Hearly req e (or_introl eq_refl) Heq). lra. }
    destruct (admits 5 60 req e stamps); [|exact Hkept].
    apply in_or_app. now left.
  - intros req' e' Hin'. apply Hearly. now right.
Qed.

(** A request that arrives 60 seconds after a timestamp on record of its
    client is admitted. *)
Lemma admits_after_window (req : request) (e : env)
    (stamps : gmap string (list Q)) (t1 : Q) :
  bounded stamps ->
  In t1 (window_of stamps (remote_addr req)) ->
  (time_time e == t1 + 60)%Q ->
  admits 5 60 req e stamps = true.
Proof.
  intros Hb Hin Hnow. apply admits_length.
  pose proof (Hb (remote_addr req)) as Hlen.
  enough (length (clean 60 (time_time e) (window_of stamps (remote_addr req)))
          < length (window_of stamps (remote_addr req)))%nat by lia.
  apply (filter_drops _ t1); [exact Hin|].
  apply Qltb_ge. lra.
Qed.

(** C1. The limiter of POST /api/ask, with requests arriving in the order
    of the clock and the dict of timestamps empty at the start.
    - In any window of 60 seconds (its opening instant included, its
      closing instant not) at most five requests of a client are admitted.
    - A request that finds five timestamps of its client younger than 60
      seconds is answered 429, makes no upstream call, and leaves on record
      those timestamps only: its own is not added.
    - The check counts the timestamps younger than 60 seconds and no
      others, and after every request no timestamp of its client that is
      60 seconds old or older is left on record.
    - After an admitted request, a request of the same client that arrives
      exactly 60 seconds later is admitted, when it is the first request of
      that client to arrive that late. *)
Theorem rate_limit_sliding_window :
  (forall arrivals client_ip t,
      chronological arrivals ->
      (admissions client_ip t arrivals (snd (serve ∅ arrivals)) <= 5)%nat)
  /\ (forall req e stamps,
      let kept := clean 60 (time_time e) (window_of stamps (remote_addr req)) in
      (5 <= length kept)%nat ->
      ask_quantum_ai req e stamps
      = (<[remote_addr req := kept]> stamps,
         ([], {| status := 429;
                 body := PDict [("error",
                                 PStr "Rate limit exceeded. Try again later.")]
              |})))
  /\ (forall req e stamps,
      let now := time_time e in
      (admitted (snd (snd (ask_quantum_ai req e stamps))) = true
       <-> (length (List.filter (fun ts => Qltb (now - ts) 60)
                      (window_of stamps (remote_addr req))) < 5)%nat)
      /\ forall ts,
         In ts (window_of (fst (ask_quantum_ai req e stamps)) (remote_addr req)) ->
         (now - 60 < ts)%Q)
  /\ (forall before req1 e1 between req2 e2,
      let stamps1 := fst (serve ∅ before) in
      let stamps2 := fst (serve stamps1 ((req1, e1) :: between)) in
      admitted (snd (snd (ask_quantum_ai req1 e1 stamps1))) = true ->
      remote_addr req2 = remote_addr req1 ->
      (time_time e2 == time_time e1 + 60)%Q ->
      (forall req e, In (req, e) between ->
                     remote_addr req = remote_addr req1 ->
                     (time_time e < time_time e1 + 60)%Q) ->
      admitted (snd (snd (ask_quantum_ai req2 e2 stamps2))) = true).
Proof.
  conjs.
  - intros arrivals client_ip t Hsorted.
    pose proof (admissions_bound client_ip t arrivals ∅ Hsorted bounded_empty)
      as H.
    lia.
  - intros req e stamps kept Hfull. unfold ask_quantum_ai.
    apply rate_limit_rejected. unfold admits. apply Z.ltb_ge.
    fold kept. lia.
  - intros req e stamps now. destruct (ask_step req e stamps) as [Hst Hadm].
    split.
    + rewrite Hadm. apply admits_length.
    + intros ts. rewrite Hst, window_of_insert.
      destruct (decide (remote_addr req = remote_addr req)) as [_|Hne];
        [|contradiction].
      assert (Hkept : forall x,
                 In x (clean 60 now (window_of stamps (remote_addr req))) ->
                 (now - 60 < x)%Q).
      { intros x Hx. apply filter_In in Hx. destruct Hx as [_ Hx].
        apply Qltb_lt in Hx. lra. }
      destruct (admits 5 60 req e stamps); [|apply Hkept].
      intros Hin. apply in_app_or in Hin.
      destruct Hin as [Hin | [<- | []]]; [now apply Hkept | fold now; lra].
  - intros before req1 e1 between req2 e2 stamps1 stamps2 Hadm1 Hip Hnow Hearly.
    destruct (ask_step req2 e2 stamps2) as [_ ->].
    assert (Hb1 : bounded stamps1) by apply bounded_serve, bounded_empty.
    apply (admits_after_window req2 e2 stamps2 (time_time e1)).
    + apply bounded_serve, Hb1.
    + rewrite Hip. subst stamps2. rewrite serve_cons. cbn [fst].
      apply stamp_survives; [|exact Hearly].
      destruct (ask_step req1 e1 stamps1) as [-> Hadm].
      rewrite Hadm in Hadm1. rewrite Hadm1, window_of_insert.
      destruct (decide (remote_addr req1 = remote_addr req1)) as [_|Hne];
        [|contradiction].
      apply in_or_app. right. now left.
    + exact Hnow.
Qed.

Lemma burst_chronological : chronological burst.
Proof.
  unfold chronological, burst. simpl.
  repeat (constructor; [|repeat constructor; simpl; lra]).
  constructor.
Qed.

Lemma rate_limit_sliding_window_witness :
  (admissions "203.0.113.7" 0 burst (snd (serve ∅ burst)) <= 5)%nat
  /\ status (snd (snd (ask_quantum_ai (fst (ask_at "203.0.113.7" 25))
                         (snd (ask_at "203.0.113.7" 25))
                         (fst (serve ∅ (firstn 5 burst)))))) = 429
  /\ admitted (snd (snd (ask_quantum_ai (fst (ask_at "203.0.113.7" 60))
                           (snd (ask_at "203.0.113.7" 60))
                           (fst (serve ∅ (firstn 6 burst)))))) = true.
Proof.
  destruct rate_limit_sliding_window as (Hbound & Hfull & _ & Hagain).
  conjs.
  - apply Hbound. exact burst_chronological.
  - rewrite Hfull; [reflexivity|]. vm_compute. lia.
  - apply (Hagain [] (fst (ask_at "203.0.113.7" 0))
             (snd (ask_at "203.0.113.7" 0))
             (map (ask_at "203.0.113.7") [5; 10; 15; 20; 25]%Q)).
    + reflexivity.
    + reflexivity.
    + vm_compute. reflexivity.
    + intros req e Hin _. simpl in Hin.
      repeat destruct Hin as [Hin|Hin];
        try (injection Hin as <- <-; simpl; lra); contradiction.
Defined.

(** The first five requests are answered, the sixth is turned away and
    leaves no timestamp, and the seventh, 60 seconds after the first, is
    answered again. *)
Example serve_burst :
  map status (snd (serve ∅ burst)) = [200; 200; 200; 200; 200; 429; 200]
  /\ window_of (fst (serve ∅ (firstn 6 burst))) "203.0.113.7"
     = [0; 5; 10; 15; 20]%Q
  /\ window_of (fst (serve ∅ burst)) "203.0.113.7" = [5; 10; 15; 20; 60]%Q.
Proof. vm_compute. repeat split. Qed.

(** The clause on chronological order cannot be dropped: with a clock that
    steps back, eight requests are admitted in one window. *)
Example serve_clock_steps_back :
  let arrivals :=
    map (ask_at "203.0.113.7") [0; 0; 0; 0; 0; 60; 1; 1; 1]%Q in
  admissions "203.0.113.7" 0 arrivals (snd (serve ∅ arrivals)) = 8%nat.
Proof. vm_compute. reflexivity. Qed.

(** * Further properties of the code *)

(** ** The dict of timestamps as the process runs *)

(** X1. Whatever requests arrive, in whatever order and at whatever clock
    readings, the dict never holds more than five timestamps for a client. *)
Theorem timestamps_never_exceed_five
    (arrivals : list (request * env)) (client_ip : string) :
  (length (window_of (fst (serve ∅ arrivals)) client_ip) <= 5)%nat.
Proof. apply bounded_serve, bounded_empty. Qed.

Lemma recorded_from (stamps : gmap string (list Q))
    (arrivals : list (request * env)) (client_ip : string) (ts : Q) :
  In ts (window_of (fst (serve stamps arrivals)) client_ip) ->
  In ts (window_of stamps client_ip)
  \/ exists req e r,
       In (req, e, r) (combine arrivals (snd (serve stamps arrivals)))
       /\ remote_addr req = client_ip /\ time_time e = ts
       /\ admitted r = true.
Proof.
  revert stamps. induction arrivals as [|[req e] rest IH]; intros stamps Hin;
    [now left|].
  rewrite serve_cons in Hin |- *. cbn [fst snd] in *.
  destruct (IH _ Hin) as [Hold | (req' & e' & r & Hr & Hrest)].
  - destruct (ask_step req e stamps) as [Hst Hadm].
    rewrite Hst, window_of_insert in Hold.
    destruct (decide (remote_addr req = client_ip)) as [Heq|Hne];
      [|now left].
    assert (Hkept : forall x,
               In x (clean 60 (time_time e) (window_of stamps (remote_addr req))) ->
               In x (window_of stamps client_ip)).
    { intros x Hx. apply filter_In in Hx. rewrite <- Heq. tauto. }
    destruct (admits 5 60 req e stamps) eqn:E; [|left; now apply Hkept].
    apply in_app_or in Hold. destruct Hold as [Hold | [<- | []]];
      [left; now apply Hkept|].
    right. exists req, e, (snd (snd (ask_quantum_ai req e stamps))).
    conjs; [now left | exact Heq | reflexivity | now rewrite Hadm].
  - right. exists req', e', r. split; [now right | exact Hrest].
Qed.

(** X2. Every timestamp the dict holds for a client is the clock reading
    of a request of that client that was let through. *)
Theorem timestamps_are_admitted_requests
    (arrivals : list (request * env)) (client_ip : string) (ts : Q) :
  In ts (window_of (fst (serve ∅ arrivals)) client_ip) ->
  exists req e r,
    In (req, e, r) (combine arrivals (snd (serve ∅ arrivals)))
    /\ remote_addr req = client_ip /\ time_time e = ts
    /\ admitted r = true.
Proof.
  intros Hin. destruct (recorded_from ∅ arrivals client_ip ts Hin) as [[]|H].
  exact H.
Qed.

Lemma timestamps_are_admitted_requests_witness :
  exists req e r,
    In (req, e, r) (combine burst (snd (serve ∅ burst)))
    /\ remote_addr req = "203.0.113.7" /\ time_time e = 60%Q
    /\ admitted r = true.
Proof.
  apply (timestamps_are_admitted_requests burst "203.0.113.7" 60).
  vm_compute. tauto.
Defined.

(** The verdict and the answer depend on the dict only through the
    timestamps of the client that asks. *)
Lemma ask_same_window (req : request) (e : env)
    (stamps stamps' : gmap string (list Q)) :
  window_of stamps (remote_addr req) = window_of stamps' (remote_addr req) ->
  snd (ask_quantum_ai req e stamps) = snd (ask_quantum_ai req e stamps')
  /\ window_of (fst (ask_quantum_ai req e stamps)) (remote_addr req)
     = window_of (fst (ask_quantum_ai req e stamps')) (remote_addr req).
Proof.
  intros Hw. unfold ask_quantum_ai. rewrite !rate_limit_unfold. cbn zeta.
  unfold admits. rewrite Hw.
  destruct (_ <? 5); cbn [fst snd]; rewrite !window_of_insert;
    destruct (decide (remote_addr req = remote_addr req)); try contradiction;
    split; reflexivity.
Qed.

Lemma ask_other_window (req : request) (e : env)
    (stamps : gmap string (list Q)) (client_ip : string) :
  remote_addr req <> client_ip ->
  window_of (fst (ask_quantum_ai req e stamps)) client_ip
  = window_of stamps client_ip.
Proof.
  intros Hne. destruct (ask_step req e stamps) as [-> _].
  rewrite window_of_insert. now destruct (decide (remote_addr req = client_ip)).
Qed.

Lemma answers_to_cons (client_ip : string) (req : request) (e : env)
    (r : response) (rest : list (request * env)) (responses : list response) :
  answers_to client_ip ((req, e) :: rest) (r :: responses)
  = if String.eqb (remote_addr req) client_ip
    then r :: answers_to client_ip rest responses
    else answers_to client_ip rest responses.
Proof.
  unfold answers_to, from_client. simpl.
  destruct (String.eqb (remote_addr req) client_ip); reflexivity.
Qed.

Lemma serve_isolated (client_ip : string) (arrivals : list (request * env))
    (stamps stamps' : gmap string (list Q)) :
  window_of stamps client_ip = window_of stamps' client_ip ->
  answers_to client_ip arrivals (snd (serve stamps arrivals))
  = snd (serve stamps' (List.filter (from_client client_ip) arrivals))
  /\ window_of (fst (serve stamps arrivals)) client_ip
     = window_of
         (fst (serve stamps' (List.filter (from_client client_ip) arrivals)))
         client_ip.
Proof.
  revert stamps stamps'.
  induction arrivals as [|[req e] rest IH]; intros stamps stamps' Hw;
    [split; [reflexivity | exact Hw]|].
  rewrite serve_cons. cbn [fst snd]. rewrite answers_to_cons.
  cbn [List.filter].
  change (from_client client_ip (req, e))
    with (String.eqb (remote_addr req) client_ip).
  destruct (String.eqb_spec (remote_addr req) client_ip) as [Heq|Hne].
  - rewrite !(serve_cons stamps' req e). cbn [fst snd]. subst client_ip.
    destruct (ask_same_window req e stamps stamps' Hw) as [Hsnd Hfst].
    destruct (IH _ _ Hfst) as [IH1 IH2].
    rewrite Hsnd, IH1. split; [reflexivity | exact IH2].
  - apply IH. now rewrite ask_other_window.
Qed.

(** X3. The limiter keeps clients apart: the answers a client receives,
    and the timestamps kept for it, are those it would get if its own
    requests were the only ones to arrive. *)
Theorem clients_do_not_interfere
    (arrivals : list (request * env)) (client_ip : string) :
  let own := List.filter (from_client client_ip) arrivals in
  answers_to client_ip arrivals (snd (serve ∅ arrivals)) = snd (serve ∅ own)
  /\ window_of (fst (serve ∅ arrivals)) client_ip
     = window_of (fst (serve ∅ own)) client_ip.
Proof. cbn zeta. now apply serve_isolated. Qed.

(** Another client's burst does not use up this client's quota. *)
Example serve_two_clients :
  map status
    (snd (serve ∅ (map (ask_at "198.51.100.2") [0; 1; 2; 3; 4; 5]%Q
                   ++ [ask_at "203.0.113.7" 6])))
  = [200; 200; 200; 200; 200; 429; 200].
Proof. vm_compute. reflexivity. Qed.

(** X4. The dict keeps a key for every client that ever asked, let through
    or not, and never drops one. *)
Theorem clients_are_never_forgotten
    (stamps : gmap string (list Q)) (arrivals : list (request * env))
    (client_ip : string) :
  is_Some (fst (serve stamps arrivals) !! client_ip)
  <-> is_Some (stamps !! client_ip)
      \/ exists req e, In (req, e) arrivals /\ remote_addr req = client_ip.
Proof.
  revert stamps. induction arrivals as [|[req e] rest IH]; intros stamps.
  - simpl. split; [now left | intros [H | (req & e & [] & _)]; exact H].
  - rewrite serve_cons. cbn [fst]. rewrite IH.
    destruct (ask_step req e stamps) as [-> _]. rewrite lookup_insert.
    destruct (decide (remote_addr req = client_ip)) as [Heq|Hne].
    + split; intros _; [right | left; eauto].
      exists req, e. split; [now left | exact Heq].
    + split.
      * intros [H | (req' & e' & Hin & Heq)]; [now left | right].
        exists req', e'. split; [now right | exact Heq].
      * intros [H | (req' & e' & [Hin | Hin] & Heq)]; [now left | |].
        -- injection Hin as <- <-. contradiction.
        -- right. eauto.
Qed.

Lemma clean_all_young (width now : Q) (l : list Q) :
  (forall ts, In ts l -> (now - ts < width)%Q) -> clean width now l = l.
Proof.
  intros H. unfold clean. induction l as [|ts l IH]; [reflexivity|]. simpl.
  replace (Qltb (now - ts) width) with true
    by (symmetry; apply Qltb_lt, H; now left).
  f_equal. apply IH. intros x Hx. apply H. now right.
Qed.

Lemma quota_used_up (n k : nat) :
  (5 <= n)%nat -> map (fun i => (i <? 5)%nat) (seq n k) = repeat false k.
Proof.
  revert n. induction k as [|k IH]; intros n Hn; [reflexivity|]. simpl.
  rewrite IH by lia. destruct (Nat.ltb_spec n 5); [lia | reflexivity].
Qed.

Lemma serve_short_burst (client_ip : string) (arrivals : list (request * env))
    (stamps : gmap string (list Q)) :
  (forall a, In a arrivals -> remote_addr (fst a) = client_ip) ->
  (forall a ts, In a arrivals -> In ts (window_of stamps client_ip) ->
                (time_time (snd a) - ts < 60)%Q) ->
  (forall a b, In a arrivals -> In b arrivals ->
               (time_time (snd a) - time_time (snd b) < 60)%Q) ->
  map admitted (snd (serve stamps arrivals))
  = map (fun i => (i <? 5)%nat)
      (seq (length (window_of stamps client_ip)) (length arrivals)).
Proof.
  revert stamps. induction arrivals as [|[req e] rest IH];
    intros stamps Hip Hold Hpair; [reflexivity|].
  rewrite serve_cons. cbn [snd map length seq].
  assert (Heq : remote_addr req = client_ip)
    by apply (Hip (req, e)), in_eq.
  destruct (ask_step req e stamps) as [Hst Hadm]. rewrite Hadm.
  assert (Hclean : clean 60 (time_time e) (window_of stamps client_ip)
                   = window_of stamps client_ip).
  { apply clean_all_young. intros ts Hts. apply (Hold (req, e)); [apply in_eq|].
    exact Hts. }
  assert (Hverdict : admits 5 60 req e stamps
                     = (length (window_of stamps client_ip) <? 5)%nat).
  { unfold admits. rewrite Heq, Hclean.
    destruct (Nat.ltb_spec (length (window_of stamps client_ip)) 5);
      [apply Z.ltb_lt | apply Z.ltb_ge]; lia. }
  rewrite Hverdict. f_equal.
  rewrite IH.
  - rewrite Hst, Heq, window_of_insert, Hclean, Hverdict.
    destruct (decide (client_ip = client_ip)) as [_|Hne]; [|contradiction].
    destruct (Nat.ltb_spec (length (window_of stamps client_ip)) 5)
      as [Hlt|Hge].
    + rewrite length_app. simpl. now rewrite Nat.add_1_r.
    + rewrite !quota_used_up by lia. reflexivity.
  - intros a Ha. apply Hip. now right.
  - intros a ts Ha. rewrite Hst, Heq, window_of_insert, Hclean.
    destruct (decide (client_ip = client_ip)) as [_|Hne]; [|contradiction].
    intros Hts.
    assert (Hts' : In ts (window_of stamps client_ip ++ [time_time e])).
    { destruct (admits 5 60 req e stamps); [exact Hts|].
      apply in_or_app. now left. }
    apply in_app_or in Hts'. destruct Hts' as [Hts' | [<- | []]].
    + apply (Hold a ts); [now right | exact Hts'].
    + apply (Hpair a (req, e)); [now right | apply in_eq].
  - intros a b Ha Hb. apply Hpair; now right.
Qed.

(** X5. Of the requests that a client not yet on record sends within less
    than 60 seconds, exactly the first five pass the limiter, whatever
    their bodies and whatever the view makes of them: requests that are
    answered 400 or 500 use up the quota like the others. *)
Theorem burst_first_five_pass (client_ip : string)
    (arrivals : list (request * env)) :
  (forall a, In a arrivals -> remote_addr (fst a) = client_ip) ->
  (forall a b, In a arrivals -> In b arrivals ->
               (time_time (snd a) - time_time (snd b) < 60)%Q) ->
  map admitted (snd (serve ∅ arrivals))
  = map (fun i => (i <? 5)%nat) (seq 0 (length arrivals)).
Proof.
  intros Hip Hpair.
  change 0%nat with (length (window_of ∅ client_ip)).
  apply (serve_short_burst client_ip arrivals ∅ Hip); [|exact Hpair].
  intros a ts _ [].
Qed.

Lemma burst_first_five_pass_witness :
  map admitted (snd (serve ∅ empty_body_burst))
  = [true; true; true; true; true; false].
Proof.
  apply (burst_first_five_pass "203.0.113.7" empty_body_burst).
  - intros a Ha. unfold empty_body_burst in Ha. simpl in Ha.
    repeat destruct Ha as [<- | Ha]; try reflexivity; contradiction.
  - intros a b Ha Hb. unfold empty_body_burst in Ha, Hb. simpl in Ha, Hb.
    repeat destruct Ha as [<- | Ha]; try contradiction;
      repeat destruct Hb as [<- | Hb]; try contradiction; simpl; lra.
Defined.

(** Five requests with an empty body are answered 400, and the sixth 429. *)
Example serve_empty_body_burst :
  map status (snd (serve ∅ empty_body_burst)) = [400; 400; 400; 400; 400; 429].
Proof. vm_compute. reflexivity. Qed.

(** ** The decorator [rate_limit] with any parameters and any view *)

Lemma limited_run_cons (max_requests : Z) (window_seconds : Q) (f : view)
    (stamps : gmap string (list Q)) (req : request) (e : env)
    (rest : list (request * env)) :
  let called := admits max_requests window_seconds req e stamps in
  let kept := clean window_seconds (time_time e)
                (window_of stamps (remote_addr req)) in
  let next :=
    <[remote_addr req := if called then kept ++ [time_time e] else kept]>
      stamps in
  limited_run max_requests window_seconds f stamps ((req, e) :: rest)
  = (fst (limited_run max_requests window_seconds f next rest),
     (called, if called then f req e else ([], too_many_requests))
     :: snd (limited_run max_requests window_seconds f next rest)).
Proof.
  cbn zeta. cbn [limited_run]. rewrite rate_limit_unfold. cbn zeta.
  destruct (admits max_requests window_seconds req e stamps);
    destruct (limited_run _ _ _ _ rest); reflexivity.
Qed.

Lemma since_clean_within (t width now : Q) (l : list Q) :
  (now < t + width)%Q -> since t (clean width now l) = since t l.
Proof.
  intros Hnow. unfold since, clean.
  induction l as [|ts l IH]; [reflexivity|]. simpl.
  destruct (Qltb (now - ts) width) eqn:Hkeep; simpl.
  - destruct (Qle_bool t ts); simpl; now rewrite IH.
  - apply Qltb_ge in Hkeep.
    destruct (Qle_bool t ts) eqn:Hin; [|exact IH].
    apply Qle_bool_iff in Hin. lra.
Qed.

Lemma calls_in_window_cons (client_ip : string) (t width : Q)
    (req : request) (e : env) (x : bool * (list outbound * response))
    (rest : list (request * env))
    (run : list (bool * (list outbound * response))) :
  calls_in_window client_ip t width ((req, e) :: rest) (x :: run)
  = ((if String.eqb (remote_addr req) client_ip
         && in_window t width (time_time e) && fst x
      then 1 else 0)
     + calls_in_window client_ip t width rest run)%nat.
Proof.
  unfold calls_in_window, from_client. simpl.
  destruct (String.eqb (remote_addr req) client_ip
            && in_window t width (time_time e) && fst x); reflexivity.
Qed.

Lemma calls_in_window_late (client_ip : string) (t width : Q)
    (arrivals : list (request * env))
    (run : list (bool * (list outbound * response))) :
  Forall (fun a => (t + width <= time_time (snd a))%Q) arrivals ->
  calls_in_window client_ip t width arrivals run = 0%nat.
Proof.
  intros Hlate. revert run.
  induction Hlate as [|[req e] rest Hhead Hrest IH]; intros [|x run];
    try reflexivity.
  rewrite calls_in_window_cons, IH. unfold in_window.
  replace (Qltb (time_time e) (t + width)) with false
    by (symmetry; apply Qltb_ge; exact Hhead).
  now rewrite andb_false_r, andb_false_r.
Qed.

Lemma limited_run_bound (max_requests : Z) (width : Q) (f : view)
    (client_ip : string) (t : Q) (arrivals : list (request * env))
    (stamps : gmap string (list Q)) :
  chronological arrivals ->
  (forall k, Z.of_nat (length (window_of stamps k)) <= Z.max 0 max_requests) ->
  Z.of_nat
    (since t (window_of stamps client_ip)
     + calls_in_window client_ip t width arrivals
         (snd (limited_run max_requests width f stamps arrivals)))
  <= Z.max 0 max_requests.
Proof.
  intros Hsorted. revert stamps.
  induction Hsorted as [|[req e] rest Hrest IH Hhead]; intros stamps Hb.
  - simpl. unfold calls_in_window. simpl.
    pose proof (since_length t (window_of stamps client_ip)).
    pose proof (Hb client_ip). lia.
  - destruct (Qlt_le_dec (time_time e) (t + width)) as [Hopen|Hclosed].
    + rewrite limited_run_cons. cbn zeta. cbn [snd].
      rewrite calls_in_window_cons. cbn [fst].
      set (called := admits max_requests width req e stamps) in *.
      set (kept := clean width (time_time e)
                     (window_of stamps (remote_addr req))) in *.
      assert (Hcalled : called = true -> Z.of_nat (length kept) < max_requests)
        by (unfold called, admits; fold kept; apply Z.ltb_lt).
      assert (Hkept : (length kept <= length (window_of stamps (remote_addr req)))%nat)
        by apply clean_length.
      match goal with
      | |- context [limited_run _ _ _ ?next rest] =>
          specialize (IH next)
      end.
      assert (Hb' : forall k,
                 Z.of_nat
                   (length
                      (window_of
                         (<[remote_addr req :=
                              if called then kept ++ [time_time e] else kept]>
                            stamps) k))
                 <= Z.max 0 max_requests).
      { intros k. rewrite window_of_insert.
        destruct (decide (remote_addr req = k)) as [_|_]; [|apply Hb].
        pose proof (Hb (remote_addr req)).
        destruct called.
        - specialize (Hcalled eq_refl). rewrite length_app. simpl. lia.
        - lia. }
      specialize (IH Hb'). rewrite window_of_insert in IH.
      destruct (decide (remote_addr req = client_ip)) as [Heq|Hne].
      * subst client_ip. rewrite String.eqb_refl. unfold kept in *.
        destruct called.
        -- rewrite since_app in IH.
           rewrite since_clean_within in IH by exact Hopen.
           unfold in_window. unfold since at 2 in IH. simpl in IH.
           replace (Qltb (time_time e) (t + width)) with true
             by (symmetry; apply Qltb_lt; exact Hopen).
           destruct (Qle_bool t (time_time e)); simpl in *; lia.
        -- rewrite since_clean_within in IH by exact Hopen.
           rewrite andb_false_r. simpl. exact IH.
      * apply String.eqb_neq in Hne. rewrite Hne. simpl. exact IH.
    + rewrite (calls_in_window_late client_ip t).
      * pose proof (since_length t (window_of stamps client_ip)).
        pose proof (Hb client_ip). lia.
      * constructor; [exact Hclosed|].
        rewrite List.Forall_forall in Hhead |- *. intros a Ha.
        apply (Qle_trans _ (time_time e)); [exact Hclosed|].
        now apply Hhead.
Qed.

Lemma limited_run_outputs (max_requests : Z) (width : Q) (f : view)
    (arrivals : list (request * env)) (stamps : gmap string (list Q)) :
  Forall2
    (fun (a : request * env) (x : bool * (list outbound * response)) =>
       snd x = if fst x then f (fst a) (snd a) else ([], too_many_requests))
    arrivals (snd (limited_run max_requests width f stamps arrivals)).
Proof.
  revert stamps. induction arrivals as [|[req e] rest IH]; intros stamps;
    [constructor|].
  rewrite limited_run_cons. cbn zeta. cbn [snd]. constructor; [|apply IH].
  reflexivity.
Qed.

(** X6. Any view under [@rate_limit(max_requests, window_seconds)], with
    requests arriving in the order of the clock and the dict empty at the
    start: a request either reaches the view, whose result is returned
    unchanged, or is answered 429 with no upstream call; and in any window
    of [window_seconds] the view is called at most [max_requests] times for
    one client, never if [max_requests] is zero or negative. *)
Theorem rate_limit_any_parameters (max_requests : Z) (window_seconds : Q)
    (f : view) (arrivals : list (request * env))
    (client_ip : string) (t : Q) :
  chronological arrivals ->
  let run := snd (limited_run max_requests window_seconds f ∅ arrivals) in
  Forall2
    (fun (a : request * env) (x : bool * (list outbound * response)) =>
       snd x = if fst x then f (fst a) (snd a)
               else ([], {| status := 429;
                            body := PDict
                              [("error",
                                PStr "Rate limit exceeded. Try again later.")]
                         |}))
    arrivals run
  /\ Z.of_nat (calls_in_window client_ip t window_seconds arrivals run)
     <= Z.max 0 max_requests.
Proof.
  intros Hsorted. cbn zeta. split; [apply limited_run_outputs|].
  pose proof (limited_run_bound max_requests window_seconds f client_ip t
                arrivals ∅ Hsorted) as H.
  assert (Hempty : forall k,
             Z.of_nat (length (window_of ∅ k)) <= Z.max 0 max_requests)
    by (intros k; rewrite window_of_empty; simpl; lia).
  specialize (H Hempty). lia.
Qed.

Lemma rate_limit_any_parameters_witness :
  Z.of_nat
    (calls_in_window "203.0.113.7" 0 60 burst
       (snd (limited_run 10 60 ask_quantum_ai_view ∅ burst)))
  <= 10.
Proof.
  apply (rate_limit_any_parameters 10 60 ask_quantum_ai_view burst
           "203.0.113.7" 0 burst_chronological).
Defined.

(** With the defaults of the decorator, ten requests a minute, all seven
    requests of the burst reach the view; with a quota of zero none does. *)
Example limited_run_defaults :
  map fst (snd (limited_run 10 60 ask_quantum_ai_view ∅ burst))
  = [true; true; true; true; true; true; true]
  /\ map fst (snd (limited_run 0 60 ask_quantum_ai_view ∅ burst))
     = [false; false; false; false; false; false; false].
Proof. vm_compute. split; reflexivity. Qed.

(** ** [validate_question]: what an accepted text is like *)

Lemma lower_append (a b : string) :
  lower (a ++ b) = (lower a ++ lower b)%string.
Proof. induction a as [|c a IH]; simpl; [reflexivity | now rewrite IH]. Qed.

Lemma validate_question_accepted (q : pyval) (t : string) :
  validate_question q = Ok (true, t) ->
  exists s, q = PStr s /\ t = strip s
            /\ String.eqb (strip s) "" = false
            /\ (1000 <? String.length (strip s))%nat = false
            /\ existsb (fun keyword => contains keyword (lower (strip s)))
                 suspicious_keywords = false.
Proof.
  intros H.
  destruct q as [| b | z | x | s | l | d];
    try (unfold validate_question in H; destruct (negb (truthy _));
         discriminate H).
  exists s. rewrite validate_question_str in H.
  destruct (String.eqb s ""); [discriminate|].
  destruct (String.eqb (strip s) ""); [discriminate|].
  destruct (1000 <? String.length (strip s))%nat; [discriminate|].
  destruct (existsb _ suspicious_keywords); [discriminate|].
  injection H as <-. tauto.
Qed.

(** X7. A text that [validate_question] accepts is a string without its
    surrounding white space; it is not empty, has at most 1000 characters,
    neither starts nor ends with white space, and contains none of the
    four keywords in any mix of upper and lower case. *)
Theorem validate_question_accepts_only_clean_text (q : pyval) (t : string) :
  validate_question q = Ok (true, t) ->
  (exists s, q = PStr s /\ trimmed s t)
  /\ t <> ""
  /\ (String.length t <= 1000)%nat
  /\ (forall before word after,
         t = (before ++ word ++ after)%string ->
         ~ In (lower word) ["<script"; "javascript:"; "data:"; "vbscript:"]).
Proof.
  intros H.
  destruct (validate_question_accepted q t H)
    as (s & -> & -> & Hne & Hlen & Hkw).
  conjs.
  - exists s. split; [reflexivity | apply strip_trimmed].
  - now apply String.eqb_neq.
  - now apply Nat.ltb_ge.
  - intros before word after Heq Hin.
    assert (Hex : existsb (fun keyword => contains keyword (lower (strip s)))
                    suspicious_keywords = true).
    { apply suspicious_iff. exists (lower word). split; [exact Hin|].
      exists (lower before), (lower after).
      now rewrite Heq, !lower_append. }
    congruence.
Qed.

Lemma validate_question_accepts_only_clean_text_witness :
  (String.length "What is superposition?" <= 1000)%nat
  /\ ~ In (lower "Superposition")
         ["<script"; "javascript:"; "data:"; "vbscript:"].
Proof.
  destruct (validate_question_accepts_only_clean_text
              (PStr "  What is Superposition?  ") "What is Superposition?"
              eq_refl)
    as (_ & _ & Hlen & Hclean).
  split; [exact Hlen|].
  apply (Hclean "What is " "Superposition" "?"). reflexivity.
Defined.

Example validate_question_mixed_case :
  validate_question (PStr "see <ScRiPt src=x>")
  = Ok (false, "Invalid question content")
  /\ validate_question (PStr "JAVASCRIPT:alert(1)")
     = Ok (false, "Invalid question content").
Proof. split; reflexivity. Qed.

(** ** [validate_question]: validating twice *)

Lemma lstrip_first (s : string) (c : ascii) (rest : string) :
  s = String c rest -> isspace c = false -> lstrip s = s.
Proof. intros -> H. simpl. now rewrite H. Qed.

Lemma rstrip_cons (c : ascii) (s : string) :
  rstrip (String c s)
  = match rstrip s with
    | EmptyString => if isspace c then EmptyString else String c EmptyString
    | kept => String c kept
    end.
Proof. reflexivity. Qed.

Lemma rstrip_idempotent (s : string) : rstrip (rstrip s) = rstrip s.
Proof.
  induction s as [|c s IH]; [reflexivity|]. rewrite rstrip_cons.
  destruct (rstrip s) as [|k kept] eqn:Hr.
  - destruct (isspace c) eqn:Hc; [reflexivity|].
    rewrite rstrip_cons. simpl. now rewrite Hc.
  - rewrite rstrip_cons, IH. reflexivity.
Qed.

Lemma strip_idempotent (s : string) : strip (strip s) = strip s.
Proof.
  destruct (strip_trimmed s) as (_ & _ & _ & _ & _ & Hfirst & _).
  unfold strip at 1.
  destruct (strip s) as [|c rest] eqn:Hs; [reflexivity|].
  rewrite (lstrip_first (String c rest) c rest eq_refl (Hfirst c rest eq_refl)).
  rewrite <- Hs. unfold strip. apply rstrip_idempotent.
Qed.

(** X8. Validation is idempotent: a text that [validate_question] returns
    as accepted is accepted again, and returned as it is. *)
Theorem validate_question_idempotent (q : pyval) (t : string) :
  validate_question q = Ok (true, t) ->
  validate_question (PStr t) = Ok (true, t).
Proof.
  intros H.
  destruct (validate_question_accepted q t H)
    as (s & -> & -> & Hne & Hlen & Hkw).
  rewrite validate_question_str, strip_idempotent, Hne, Hlen, Hkw.
  destruct (String.eqb_spec (strip s) ""); [discriminate | reflexivity].
Qed.

Lemma validate_question_idempotent_witness :
  validate_question (PStr "What is superposition?")
  = Ok (true, "What is superposition?").
Proof.
  apply (validate_question_idempotent (PStr "  What is superposition?  ")).
  reflexivity.
Defined.

(** X9. [validate_question] ends in one of six ways: it accepts, it
    rejects with one of four messages that are fixed in the code, or, on a
    truthy value that is not a string, it raises [AttributeError]. The
    message of a rejection never repeats the text it rejects. *)
Theorem validate_question_results (q : pyval) :
  (exists s, q = PStr s /\ validate_question q = Ok (true, strip s))
  \/ (exists reason,
         validate_question q = Ok (false, reason)
         /\ In reason [ "No question provided"; "Empty question";
                        "Question too long (max 1000 characters)";
                        "Invalid question content" ])
  \/ (exists text,
         validate_question q = Raise (Exn AttributeError text)
         /\ truthy q = true /\ forall s, q <> PStr s).
Proof.
  destruct q as [| b | z | x | s | l | d].
  - right. left. eexists. split; [reflexivity | simpl; tauto].
  - destruct b.
    + right. right. eexists. conjs; try reflexivity. discriminate.
    + right. left. eexists. split; [reflexivity | simpl; tauto].
  - unfold validate_question. destruct (truthy (PInt z)) eqn:E; cbn [negb].
    + right. right. eexists. conjs; try reflexivity. discriminate.
    + right. left. eexists. split; [reflexivity | simpl; tauto].
  - unfold validate_question. destruct (truthy (PFloat x)) eqn:E; cbn [negb].
    + right. right. eexists. conjs; try reflexivity. discriminate.
    + right. left. eexists. split; [reflexivity | simpl; tauto].
  - rewrite validate_question_str.
    destruct (String.eqb s "");
      [right; left; eexists; split; [reflexivity | simpl; tauto]|].
    destruct (String.eqb (strip s) "");
      [right; left; eexists; split; [reflexivity | simpl; tauto]|].
    destruct (1000 <? String.length (strip s))%nat;
      [right; left; eexists; split; [reflexivity | simpl; tauto]|].
    destruct (existsb _ suspicious_keywords);
      [right; left; eexists; split; [reflexivity | simpl; tauto]|].
    left. exists s. split; reflexivity.
  - destruct l.
    + right. left. eexists. split; [reflexivity | simpl; tauto].
    + right. right. eexists. conjs; try reflexivity. discriminate.
  - destruct d.
    + right. left. eexists. split; [reflexivity | simpl; tauto].
    + right. right. eexists. conjs; try reflexivity. discriminate.
Qed.

(** ** POST /api/ask: what goes upstream *)

Lemma ask_try_calls (req : request) (e : env) :
  (fst (ask_try req e) = []
   /\ forall r, snd (ask_try req e) = Ok r -> status r = 400)
  \/ exists fields t data_summary,
       json req = Ok (PDict fields)
       /\ validate_question (question_of fields) = Ok (true, t)
       /\ get_simulation_summary (db e) 5 = Ok data_summary
       /\ ask_try req e
          = ([ask_call req e data_summary t],
             ask_upstream req e (ask_call req e data_summary t)).
Proof.
  unfold ask_try.
  destruct (json req) as [request_json|x] eqn:Hjson;
    [|left; split; [reflexivity | intros r; discriminate]].
  destruct (truthy request_json) eqn:Htruthy; cbn [negb];
    [|left; split; [reflexivity | intros r [= <-]; reflexivity]].
  destruct request_json as [| b | z | x | s | l | fields];
    try (left; split; [reflexivity | intros r; discriminate]).
  cbn [py_get]. fold (question_of fields).
  destruct (validate_question (question_of fields)) as [[[|] t]|x] eqn:Hv.
  - destruct (get_simulation_summary (db e) 5) as [data_summary|x] eqn:Hs;
      [|left; split; [reflexivity | intros r; discriminate]].
    right. exists fields, t, data_summary. tauto.
  - left. split; [reflexivity | intros r [= <-]; reflexivity].
  - left. split; [reflexivity | intros r; discriminate].
Qed.

(** X10. POST /api/ask calls the upstream service at most once for a
    request, and only with a question that [validate_question] accepted:
    the call goes to the completions URL with the timeout of 30 seconds and
    carries the accepted text as the user message. A request answered 400
    or 429 made no call. *)
Theorem ask_calls_upstream_once_with_validated_text
    (req : request) (e : env) (stamps : gmap string (list Q)) :
  let calls := fst (snd (ask_quantum_ai req e stamps)) in
  let answer := snd (snd (ask_quantum_ai req e stamps)) in
  (calls = []
   \/ exists fields t data_summary,
        json req = Ok (PDict fields)
        /\ validate_question (question_of fields) = Ok (true, t)
        /\ calls
           = [ {| url := "https://openrouter.ai/api/v1/chat/completions";
                  headers := ask_headers req e;
                  data := ask_payload data_summary t;
                  timeout := 30 |} ])
  /\ (status answer = 400 \/ status answer = 429 -> calls = []).
Proof.
  cbn zeta. unfold ask_quantum_ai. rewrite rate_limit_unfold. cbn zeta.
  destruct (admits 5 60 req e stamps); cbn [fst snd];
    [|split; [now left | reflexivity]].
  unfold ask_quantum_ai_view.
  destruct (ask_try_calls req e)
    as [[Hnone _] | (fields & t & data_summary & Hjson & Hv & Hs & Htry)].
  - destruct (ask_try req e) as [calls outcome]. cbn [fst snd] in *.
    split; [now left | intros _; exact Hnone].
  - rewrite Htry. cbn [fst snd]. split.
    + right. exists fields, t, data_summary. tauto.
    + intros Hstatus. exfalso.
      destruct (ask_upstream_cases req e (ask_call req e data_summary t))
        as [[a H] | [H | [x H]]]; rewrite H in Hstatus.
      * simpl in Hstatus. destruct Hstatus; discriminate.
      * simpl in Hstatus. destruct Hstatus; discriminate.
      * pose proof (ask_except_status x) as Hx. simpl in Hx.
        destruct Hstatus as [Hst | Hst]; rewrite Hst in Hx;
          repeat destruct Hx as [Hx | Hx]; try discriminate Hx; contradiction.
Qed.

(** X11. A store that cannot be opened or queried does not fail a
    question: the sentence "Unable to retrieve simulation data." stands in
    for the digest in the upstream call, which carries nothing of the
    store's error, and an answer of the upstream service is returned with
    200. *)
Theorem ask_survives_store_failure
    (req : request) (e : env) (stamps : gmap string (list Q))
    (fields : list (string * pyval)) (t text : string)
    (r : upstream_response) (data answer : pyval) :
  db e = Unavailable text \/ db e = NoSuchTable text ->
  admits 5 60 req e stamps = true ->
  json req = Ok (PDict fields) -> fields <> [] ->
  validate_question (question_of fields) = Ok (true, t) ->
  let call := ask_call req e "Unable to retrieve simulation data." t in
  requests_post e call = Ok r ->
  raise_for_status r = Ok tt ->
  response_json r = Ok data ->
  answer_of data = Some answer ->
  snd (ask_quantum_ai req e stamps)
  = ([call], {| status := 200; body := PDict [("answer", answer)] |}).
Proof.
  intros Hdb Hadm Hjson Hne Hv call Hpost Hstatus Hbody Hanswer.
  assert (Hs : get_simulation_summary (db e) 5
               = Ok "Unable to retrieve simulation data.")
    by (destruct Hdb as [-> | ->]; reflexivity).
  unfold ask_quantum_ai. rewrite (rate_limit_admitted _ _ _ _ _ _ Hadm).
  cbn [snd]. unfold ask_quantum_ai_view.
  rewrite (ask_try_validated req e fields t _ Hjson Hne Hv Hs).
  fold call.
  pose proof (ask_upstream_body req e call r data Hpost Hstatus Hbody) as H.
  rewrite Hanswer in H. now rewrite H.
Qed.

Lemma ask_survives_store_failure_witness :
  snd (snd (ask_quantum_ai superposition_request
              (sample_env 0 (NoSuchTable "no such table: simulations")
                 (answering_upstream "A state that is a sum of basis states."))
              ∅))
  = {| status := 200;
       body := PDict [("answer",
                       PStr "A state that is a sum of basis states.")] |}.
Proof.
  rewrite (ask_survives_store_failure superposition_request
             (sample_env 0 (NoSuchTable "no such table: simulations")
                (answering_upstream "A state that is a sum of basis states."))
             ∅ [("question", PStr "What is superposition?")]
             "What is superposition?" "no such table: simulations"
             {| raise_for_status := Ok tt;
                json_body :=
                  Some (completion_body
                          "A state that is a sum of basis states.") |}
             (completion_body "A state that is a sum of basis states.")
             (PStr "A state that is a sum of basis states."));
    try reflexivity.
  - now right.
  - discriminate.
Defined.

(** ** GET /api/quantum-data: the pages together *)

Lemma firstn_plus {A : Type} (a b : nat) (l : list A) :
  firstn (a + b) l = firstn a l ++ firstn b (skipn a l).
Proof.
  revert l. induction a as [|a IH]; intros l; [reflexivity|].
  destruct l as [|x l]; simpl; [now rewrite firstn_nil | now rewrite IH].
Qed.

Lemma concat_slices {A B : Type} (f : A -> B) (m k : nat) (l : list A) :
  concat (map (fun i => map f (firstn m (skipn (i * m) l))) (seq 0 k))
  = map f (firstn (k * m) l).
Proof.
  induction k as [|k IH]; [reflexivity|].
  rewrite seq_S, map_app, concat_app, IH. simpl.
  rewrite app_nil_r, <- map_app, <- firstn_plus. do 2 f_equal. lia.
Qed.

Lemma get_quantum_data_slice (t : table) (p m : Z) :
  1 <= p -> 1 <= m <= 100 -> (p - 1) * m <= INT64_MAX ->
  data_of (get_quantum_data (page_request (Some p) (Some m))
             (store_env (Simulations t)))
  = map dict_of_row
      (firstn (Z.to_nat m)
         (skipn (Z.to_nat (p - 1) * Z.to_nat m) (order_by id_before (rows t)))).
Proof.
  intros Hp Hm Hfit. unfold get_quantum_data.
  rewrite (get_quantum_data_rows (page_request (Some p) (Some m))
             (store_env (Simulations t)) t eq_refl).
  cbn zeta.
  change (args_get (page_request (Some p) (Some m)) "per_page" 50) with m.
  change (args_get (page_request (Some p) (Some m)) "page" 1) with p.
  replace (Z.min m 100) with m by lia.
  assert (fits_int64 m = true) as ->
    by (apply fits_int64_iff; unfold INT64_MIN, INT64_MAX; lia).
  assert (fits_int64 ((p - 1) * m) = true) as ->
    by (apply fits_int64_iff; unfold INT64_MIN; nia).
  cbn [andb].
  destruct (Z.eqb_spec m 0); [lia|].
  unfold data_of, page_body, select_page, sql_limit, sql_offset. cbn [body].
  destruct (Z.ltb_spec m 0); [lia|].
  do 3 f_equal. nia.
Qed.

(** X12. With a page size between 1 and 100, the pages 1 to [pages] of
    GET /api/quantum-data, one after the other, are the whole table in the
    order of the ids: every record is on exactly one page. *)
Theorem pages_cover_the_table (t : table) (m : Z) :
  1 <= m <= 100 ->
  let e := store_env (Simulations t) in
  let pages := (Z.of_nat (length (rows t)) + m - 1) / m in
  concat
    (map (fun p => data_of (get_quantum_data
                              (page_request (Some (Z.of_nat p)) (Some m)) e))
       (seq 1 (Z.to_nat pages)))
  = map dict_of_row (order_by id_before (rows t)).
Proof.
  intros Hm. cbn zeta.
  set (pages := (Z.of_nat (length (rows t)) + m - 1) / m).
  pose proof (ceiling_div (Z.of_nat (length (rows t))) m ltac:(lia)) as Hceil.
  pose proof (rows_fit t) as Hrows.
  fold pages in Hceil.
  assert (Hpages : 0 <= pages) by nia.
  rewrite <- seq_shift, map_map.
  rewrite (map_ext_in _
             (fun i => map dict_of_row
                         (firstn (Z.to_nat m)
                            (skipn (i * Z.to_nat m)
                               (order_by id_before (rows t)))))).
  - rewrite concat_slices, firstn_all2; [reflexivity|].
    rewrite order_by_length. nia.
  - intros i Hi. apply in_seq in Hi.
    rewrite get_quantum_data_slice by nia.
    do 3 f_equal. lia.
Qed.

Lemma pages_cover_the_table_witness :
  concat
    (map (fun p => data_of
                     (get_quantum_data
                        (page_request (Some (Z.of_nat p)) (Some 50))
                        (store_env (Simulations store_120))))
       [1; 2; 3]%nat)
  = map dict_of_row (order_by id_before (rows store_120)).
Proof.
  apply (pages_cover_the_table store_120 50). lia.
Defined.

(** X13. A negative [per_page] escapes the cap of 100: with a page of 1 or
    more, and as long as the page size and the offset fit 64-bit integers,
    the answer carries the whole table, however many rows it has. *)
Theorem negative_per_page_returns_everything
    (req : request) (e : env) (t : table) (n : Z) :
  db e = Simulations t ->
  args_int req "per_page" = Some n -> n < 0 ->
  1 <= args_get req "page" 1 ->
  INT64_MIN <= n -> INT64_MIN <= (args_get req "page" 1 - 1) * n ->
  status (get_quantum_data req e) = 200
  /\ data_of (get_quantum_data req e)
     = map dict_of_row (order_by id_before (rows t))
  /\ length (data_of (get_quantum_data req e)) = length (rows t).
Proof.
  intros Hdb Hn Hneg Hp Hlo Hoff.
  assert (Hdata : get_quantum_data req e
                  = {| status := 200;
                       body := page_body (order_by id_before (rows t))
                                 (args_get req "page" 1) n
                                 (Z.of_nat (length (rows t)))
                                 ((Z.of_nat (length (rows t)) + n - 1) / n) |}).
  { unfold get_quantum_data.
    rewrite (get_quantum_data_rows req e t Hdb). cbn zeta.
    assert (Hpp : args_get req "per_page" 50 = n)
      by (unfold args_get; now rewrite Hn).
    rewrite Hpp. set (p := args_get req "page" 1) in *.
    replace (Z.min n 100) with n by lia.
    assert (fits_int64 n = true) as ->
      by (apply fits_int64_iff; unfold INT64_MAX; lia).
    assert (fits_int64 ((p - 1) * n) = true) as ->
      by (apply fits_int64_iff; unfold INT64_MAX; nia).
    cbn [andb].
    destruct (Z.eqb_spec n 0); [lia|].
    unfold select_page, sql_limit, sql_offset.
    destruct (Z.ltb_spec n 0); [|lia].
    replace (Z.max 0 ((p - 1) * n)) with 0 by nia.
    reflexivity. }
  rewrite Hdata. conjs; try reflexivity.
  unfold data_of, page_body. cbn [body].
  now rewrite length_map, order_by_length.
Qed.

Lemma negative_per_page_returns_everything_witness :
  length (data_of (get_quantum_data (page_request None (Some (-1)))
                     (store_env (Simulations store_120))))
  = 120%nat.
Proof.
  destruct (negative_per_page_returns_everything
              (page_request None (Some (-1)))
              (store_env (Simulations store_120)) store_120 (-1)
              eq_refl eq_refl ltac:(lia) ltac:(vm_compute; discriminate)
              ltac:(vm_compute; discriminate) ltac:(vm_compute; discriminate))
    as (_ & _ & Hlen).
  exact Hlen.
Defined.

(** ** GET /api/health and the other views on one store *)

(** X14. The probe reports a store as healthy exactly when the connection
    opens. It does not look at the table: with the table missing it
    answers 200 while GET /api/quantum-data answers 500 and the digest for
    the upstream call falls back to its sentence for a failing store. *)
Theorem health_check_sees_only_the_connection (req req' : request) (e : env) :
  (status (health_check req e) = 200 \/ status (health_check req e) = 500)
  /\ (status (health_check req e) = 200
      <-> forall text, db e <> Unavailable text)
  /\ (forall text, db e = NoSuchTable text ->
      status (health_check req e) = 200
      /\ get_quantum_data req' e
         = jsonify_status [("error", PStr "Database error occurred")] 500
      /\ get_simulation_summary (db e) 5
         = Ok "Unable to retrieve simulation data.").
Proof.
  unfold health_check, get_quantum_data, get_quantum_data_try.
  destruct (db e) as [text | text | rows]; cbn [get_db_connection]; conjs.
  - now right.
  - split; [discriminate | intros H; now destruct (H text)].
  - discriminate.
  - now left.
  - split; [discriminate | reflexivity].
  - intros text' _. conjs; reflexivity.
  - now left.
  - split; [discriminate | reflexivity].
  - discriminate.
Qed.

(** ** The digest: counts *)

Lemma Zsum_app (l l' : list Z) : Zsum (l ++ l') = Zsum l + Zsum l'.
Proof. induction l as [|x l IH]; simpl; [reflexivity | rewrite IH; lia]. Qed.

Lemma Zsum_perm (l l' : list Z) : Permutation l l' -> Zsum l = Zsum l'.
Proof. induction 1; simpl; lia. Qed.

Lemma Zsum_nonneg (l : list Z) : Forall (fun z => 0 <= z) l -> 0 <= Zsum l.
Proof. induction 1; simpl; lia. Qed.

Lemma group_rows_cons (a : string) (r : SimulationRecord)
    (rows : list SimulationRecord) :
  length (group_rows a (r :: rows))
  = ((if String.eqb (algorithm r) a then 1 else 0)
     + length (group_rows a rows))%nat.
Proof.
  unfold group_rows. simpl. now destruct (String.eqb (algorithm r) a).
Qed.

(** The sizes of the groups of the keys other than [a]. *)
Lemma group_sizes_without (a : string) (keys : list string)
    (rows : list SimulationRecord) :
  List.NoDup keys ->
  Zsum (map (fun k => Z.of_nat (length (group_rows k rows))) keys)
  = Zsum (map (fun k => Z.of_nat (length (group_rows k rows)))
            (List.filter (fun k => negb (String.eqb k a)) keys))
    + (if existsb (String.eqb a) keys
       then Z.of_nat (length (group_rows a rows)) else 0).
Proof.
  induction 1 as [|k keys Hk Hnd IH]; [reflexivity|]. simpl.
  rewrite IH. rewrite (String.eqb_sym a k).
  destruct (String.eqb_spec k a) as [->|Hne]; simpl.
  - replace (existsb (String.eqb a) keys) with false; [lia|].
    symmetry. apply not_true_is_false. intros Hex.
    apply existsb_exists in Hex. destruct Hex as (x & Hx & Heq).
    apply String.eqb_eq in Heq. subst x. contradiction.
  - lia.
Qed.

Lemma group_rows_absent (a : string) (rows : list SimulationRecord) :
  existsb (String.eqb a) (group_keys rows) = false ->
  length (group_rows a rows) = 0%nat.
Proof.
  intros H. unfold group_rows.
  induction rows as [|r rows IH]; [reflexivity|]. simpl in *.
  rewrite orb_false_iff in H. destruct H as [Hr Hrest].
  rewrite (String.eqb_sym (algorithm r) a), Hr. apply IH.
  destruct (existsb (String.eqb a) (group_keys rows)) eqn:E; [|reflexivity].
  apply existsb_exists in E. destruct E as (x & Hx & Heq).
  apply String.eqb_eq in Heq. subst x.
  assert (Hin : In a (List.filter
                        (fun k => negb (String.eqb k (algorithm r)))
                        (group_keys rows))).
  { apply filter_In. split; [exact Hx|]. now rewrite Hr. }
  assert (Hex : existsb (String.eqb a)
                  (List.filter (fun k => negb (String.eqb k (algorithm r)))
                     (group_keys rows)) = true).
  { apply existsb_exists. exists a. split; [exact Hin | apply String.eqb_refl]. }
  congruence.
Qed.

(** [GROUP BY] splits the table: the sizes of the groups add up to the
    number of rows. *)
Lemma group_sizes_total (rows : list SimulationRecord) :
  Zsum (map (fun k => Z.of_nat (length (group_rows k rows))) (group_keys rows))
  = Z.of_nat (length rows).
Proof.
  induction rows as [|r rows IH]; [reflexivity|].
  cbn [group_keys map Zsum fold_right length].
  rewrite group_rows_cons, String.eqb_refl.
  rewrite (map_ext_in _ (fun k => Z.of_nat (length (group_rows k rows)))).
  - pose proof (group_sizes_without (algorithm r) (group_keys rows) rows
                  (group_keys_NoDup rows)) as H.
    fold (Zsum (map (fun k => Z.of_nat (length (group_rows k rows)))
                  (List.filter (fun a => negb (String.eqb a (algorithm r)))
                     (group_keys rows)))).
    destruct (existsb (String.eqb (algorithm r)) (group_keys rows)) eqn:E.
    + lia.
    + rewrite (group_rows_absent _ _ E) in *. lia.
  - intros k Hk. apply filter_In in Hk. destruct Hk as [_ Hk].
    rewrite group_rows_cons.
    apply negb_true_iff in Hk. rewrite String.eqb_sym in Hk. now rewrite Hk.
Qed.

Lemma ranking_counts (t : table) :
  Zsum (map simulation_count (ranking t)) = Z.of_nat (length (rows t)).
Proof.
  unfold ranking.
  rewrite (Zsum_perm _ _
             (Permutation_map simulation_count
                (order_by_perm (accuracy_desc t)
                   (map (aggregate t) (group_keys (rows t)))))).
  rewrite map_map. apply group_sizes_total.
Qed.

Lemma sql_limit_In {A : Type} (n : Z) (l : list A) (x : A) :
  In x (sql_limit n l) -> In x l.
Proof.
  unfold sql_limit. destruct (n <? 0); [tauto|].
  intros H. rewrite <- (firstn_skipn (Z.to_nat n) l). apply in_or_app.
  now left.
Qed.

(** X15. The run counts of the digest never add up to more than the number
    of records, and they add up to exactly that number when no group is
    cut off: with a negative limit, or with a limit that is not below the
    number of algorithms in the table. *)
Theorem digest_counts_add_up (t : table) (limit : Z) :
  Zsum (map simulation_count (select_summary limit t))
  <= Z.of_nat (length (rows t))
  /\ (limit < 0 \/ Z.of_nat (length (group_keys (rows t))) <= limit ->
      Zsum (map simulation_count (select_summary limit t))
      = Z.of_nat (length (rows t))).
Proof.
  pose proof (ranking_counts t) as Htotal.
  unfold select_summary, sql_limit.
  destruct (Z.ltb_spec limit 0) as [Hneg|Hpos]; cbv iota.
  - split; [rewrite Htotal; apply Z.le_refl | intros _; exact Htotal].
  - rewrite <- (firstn_skipn (Z.to_nat limit) (ranking t)) in Htotal.
    rewrite map_app, Zsum_app in Htotal.
    assert (Hrest : 0 <= Zsum (map simulation_count
                                 (skipn (Z.to_nat limit) (ranking t)))).
    { apply Zsum_nonneg. rewrite List.Forall_forall. intros z Hz.
      apply in_map_iff in Hz. destruct Hz as (g & <- & Hg).
      assert (Hin : In g (ranking t)).
      { rewrite <- (firstn_skipn (Z.to_nat limit) (ranking t)).
        apply in_or_app. now right. }
      destruct (ranking_In t g Hin) as [-> _]. simpl. lia. }
    split; [lia|]. intros [Hlt | Hall]; [lia|].
    rewrite firstn_all2; [exact (ranking_counts t)|].
    unfold ranking. rewrite order_by_length, length_map. lia.
Qed.

Lemma digest_counts_add_up_witness :
  Zsum (map simulation_count (select_summary 5 runs_A_B)) = 4.
Proof.
  destruct (digest_counts_add_up runs_A_B 5) as [_ H].
  apply H. right. vm_compute. discriminate.
Defined.

(** X16. Every group of the digest stands for at least one run: its count
    is the number of rows of the table with its algorithm, which is not
    zero. *)
Theorem digest_groups_have_runs (t : table) (limit : Z) (g : summary_row) :
  In g (select_summary limit t) ->
  (exists r, In r (rows t) /\ algorithm r = row_algorithm g)
  /\ simulation_count g
     = Z.of_nat (length (List.filter
                           (fun r => String.eqb (algorithm r) (row_algorithm g))
                           (rows t)))
  /\ 1 <= simulation_count g <= Z.of_nat (length (rows t)).
Proof.
  intros Hg. apply sql_limit_In in Hg.
  destruct (ranking_In t g Hg) as [Hgeq (r & Hr & Halg)].
  assert (Hcount : simulation_count g
                   = Z.of_nat (length (group_rows (row_algorithm g) (rows t))))
    by (rewrite Hgeq at 1; reflexivity).
  assert (Hmember : In r (group_rows (row_algorithm g) (rows t))).
  { apply filter_In. split; [exact Hr|]. now apply String.eqb_eq. }
  pose proof (List.filter_length_le
                (fun r => String.eqb (algorithm r) (row_algorithm g)) (rows t))
    as Hle.
  conjs.
  - now exists r.
  - exact Hcount.
  - rewrite Hcount.
    destruct (group_rows (row_algorithm g) (rows t));
      [contradiction | cbn [length]; lia].
  - rewrite Hcount. unfold group_rows. lia.
Qed.

Lemma digest_groups_have_runs_witness :
  1 <= simulation_count (aggregate runs_A_B "B") <= 4.
Proof.
  destruct (digest_groups_have_runs runs_A_B 5 (aggregate runs_A_B "B"))
    as (_ & _ & H).
  - vm_compute. tauto.
  - exact H.
Defined.

(** X17. The digest shows as many groups as the limit allows: all of them
    for a negative limit, otherwise the smaller of the limit and the number
    of algorithms in the table. With a limit of zero the function answers
    that no data is available, although the table has rows. *)
Theorem digest_limit (t : table) (limit : Z) :
  length (select_summary limit t)
  = (if limit <? 0 then length (group_keys (rows t))
     else Nat.min (Z.to_nat limit) (length (group_keys (rows t))))
  /\ (limit = 0 ->
      get_simulation_summary (Simulations t) limit
      = Ok "No quantum simulation data available yet.").
Proof.
  assert (Hlen : length (ranking t) = length (group_keys (rows t)))
    by (unfold ranking; now rewrite order_by_length, length_map).
  split.
  - unfold select_summary, sql_limit.
    destruct (limit <? 0); [exact Hlen|].
    now rewrite length_firstn, Hlen.
  - intros ->.
    rewrite get_simulation_summary_rows by (unfold INT64_MIN, INT64_MAX; lia).
    reflexivity.
Qed.

Lemma digest_limit_witness :
  get_simulation_summary (Simulations runs_A_B) 0
  = Ok "No quantum simulation data available yet.".
Proof.
  destruct (digest_limit runs_A_B 0) as [_ H]. now apply H.
Defined.

(** ** The client of [Test_Flask.py] against POST /api/ask *)

(** X18. The request that [Test_Flask.py] posts carries [prompt] and
    [service_context] and no [question]. Whatever the state of the
    limiter, the store and the upstream service, POST /api/ask answers it
    400 "No question provided" or 429, never 200, and makes no upstream
    call for it: when this application is the server, the script's test
    [response.status_code != 200] holds. *)
Theorem test_flask_request_is_never_answered
    (client_ip host : string) (e : env) (stamps : gmap string (list Q)) :
  let outcome := snd (ask_quantum_ai (test_flask_request client_ip host)
                        e stamps) in
  fst outcome = []
  /\ (snd outcome
      = jsonify_status [("error", PStr "No question provided")] 400
      \/ snd outcome = too_many_requests)
  /\ status (snd outcome) <> 200.
Proof.
  cbn zeta. unfold ask_quantum_ai. rewrite rate_limit_unfold. cbn zeta.
  destruct (admits 5 60 (test_flask_request client_ip host) e stamps);
    cbn [fst snd]; conjs; try reflexivity; try discriminate;
    [left | right]; reflexivity.
Qed.

(** ** The digest: what escapes [except sqlite3.Error] *)

Lemma summary_lines_of_null (groups : list summary_row) (g : summary_row) :
  In g groups -> avg_accuracy g = None \/ avg_runtime g = None ->
  summary_lines_of groups
  = Raise (Exn TypeError
             "unsupported format string passed to NoneType.__format__").
Proof.
  intros Hin Hnull. induction groups as [|h groups IH]; [contradiction|].
  cbn [summary_lines_of].
  destruct (summary_line h) as [line|x] eqn:Hline; cbn [mbind result_bind].
  - destruct Hin as [-> | Hin].
    + exfalso. unfold summary_line in Hline.
      destruct Hnull as [Hn | Hn]; rewrite Hn in Hline.
      * discriminate.
      * destruct (avg_accuracy g); discriminate.
    + now rewrite (IH Hin).
  - unfold summary_line in Hline.
    destruct (avg_accuracy h); cbn [py_format_f mbind result_bind raise] in Hline;
      [destruct (avg_runtime h);
       cbn [py_format_f mbind result_bind raise] in Hline|];
      congruence.
Qed.

(** X20. [get_simulation_summary] catches [sqlite3.Error] only. A limit
    that does not fit 64 bits raises [OverflowError] when it is bound, and
    a selected group whose average is NULL, as it is for an algorithm none
    of whose runs has an accuracy, raises [TypeError] in the f-string; both
    leave the function. In POST /api/ask, which uses the limit 5, such a
    group turns every accepted question into a 500 "An unexpected error
    occurred" without an upstream call. *)
Theorem digest_exceptions_escape (t : table) :
  (forall limit, limit < INT64_MIN \/ INT64_MAX < limit ->
   get_simulation_summary (Simulations t) limit
   = Raise (Exn OverflowError
              "Python int too large to convert to SQLite INTEGER"))
  /\ (forall a, In a (group_keys (rows t)) ->
      (forall r, In r (rows t) -> algorithm r = a -> accuracy r = None) ->
      mean_accuracy t a = None)
  /\ (forall limit g, INT64_MIN <= limit <= INT64_MAX ->
      In g (select_summary limit t) ->
      avg_accuracy g = None \/ avg_runtime g = None ->
      get_simulation_summary (Simulations t) limit
      = Raise (Exn TypeError
                 "unsupported format string passed to NoneType.__format__"))
  /\ (forall g req e stamps fields text,
      In g (select_summary 5 t) ->
      avg_accuracy g = None \/ avg_runtime g = None ->
      db e = Simulations t ->
      admits 5 60 req e stamps = true ->
      json req = Ok (PDict fields) -> fields <> [] ->
      validate_question (question_of fields) = Ok (true, text) ->
      snd (ask_quantum_ai req e stamps) = ([], unexpected_error)).
Proof.
  assert (Hnull : forall limit g, INT64_MIN <= limit <= INT64_MAX ->
            In g (select_summary limit t) ->
            avg_accuracy g = None \/ avg_runtime g = None ->
            get_simulation_summary (Simulations t) limit
            = Raise (Exn TypeError
                       "unsupported format string passed to NoneType.__format__")).
  { intros limit g Hfit Hg Hn. rewrite get_simulation_summary_rows by exact Hfit.
    pose proof (summary_lines_of_null _ g Hg Hn) as Hlines.
    destruct (select_summary limit t) as [|h groups]; [contradiction|].
    now rewrite Hlines. }
  conjs.
  - apply get_simulation_summary_overflow.
  - intros a _ Hall. unfold mean_accuracy, sql_avg.
    assert (Hvalues : not_null (map accuracy (group_rows a (rows t))) = []).
    { unfold group_rows. induction (rows t) as [|r l IH]; [reflexivity|].
      cbn [List.filter].
      assert (IH' : not_null (map accuracy
                                (List.filter
                                   (fun r => String.eqb (algorithm r) a) l))
                    = [])
        by (apply IH; intros r' Hr'; apply Hall; now right).
      destruct (String.eqb_spec (algorithm r) a) as [Heq|Hne]; [|exact IH'].
      cbn [map not_null]. rewrite (Hall r (or_introl eq_refl) Heq).
      exact IH'. }
    now rewrite Hvalues.
  - exact Hnull.
  - intros g req e stamps fields text Hg Hn Hdb Hadm Hjson Hne Hvalid.
    unfold ask_quantum_ai. rewrite (rate_limit_admitted _ _ _ _ _ _ Hadm).
    cbn [snd]. unfold ask_quantum_ai_view, ask_try. rewrite Hjson.
    destruct fields as [|kv fields]; [contradiction|].
    cbn [truthy negb py_get]. fold (question_of (kv :: fields)).
    rewrite Hvalid, Hdb.
    rewrite (Hnull 5 g) by
      (try exact Hg; try exact Hn; unfold INT64_MIN, INT64_MAX; lia).
    reflexivity.
Qed.

Lemma digest_exceptions_escape_witness :
  snd (ask_quantum_ai superposition_request
         (sample_env 0 (Simulations run_without_accuracy)
            (answering_upstream "A state that is a sum of basis states."))
         ∅)
  = ([], unexpected_error).
Proof.
  destruct (digest_exceptions_escape run_without_accuracy)
    as (_ & _ & _ & Hask).
  apply (Hask (aggregate run_without_accuracy "A") superposition_request _ ∅
           [("question", PStr "What is superposition?")]
           "What is superposition?");
    try reflexivity.
  - left. reflexivity.
  - now left.
  - discriminate.
Defined.
